(** * last2hours-skill: the cache, date and normalisation library

    A shallow embedding of [scripts/lib/dates.py], [scripts/lib/cache.py]
    and [scripts/lib/normalize.py], followed by the properties proved
    about them.

    Conventions of the embedding.
    - Python text is a [string] whose characters are the code points
      below 256 (ASCII and Latin-1); [str.strip], [str.lower] and the
      classes [\d] and [\s] of [re] act on them as Python does.  Text
      with other code points is outside the embedding.
    - A Python exception is a value [exc] (class and message); a call that
      may raise returns a [result].  [except (A, B)] is [try_except] with
      the handled classes, and honours the subclass relation of the
      built-in exceptions.
    - A [timedelta] and a [datetime] are exact counts of microseconds, the
      resolution of both Python types, with the range checks of the
      Python constructors written out.
    - Python floats ([total_seconds()], the divisions into hours, the
      recency ratio) are taken as exact rationals [Q].  A binary float
      rounds, so a property that depends on the value of such a number
      is stated where rounding cannot change the answer: a time to live
      of whole half hours up to a week, a window of up to 3650 days, a
      recency maximum of up to 100 days with the score allowed to fall
      one short of the exact one.  Comparisons of two [timedelta]s and
      the sign of [total_seconds()] are exact in Python too.
    - [int(text)] is the decimal value of the digits, and a
      [ValueError] for more than 4300 of them.
    - A library call raises what its documentation says it may raise.
      [Path.exists()] answers [False] for a missing entry and for a path
      with a NUL in it, and raises the [OSError] of [stat] otherwise
      (a refused search permission, for one).
    - The clock ([datetime.now]) and the file system are explicit
      arguments.  The file system is the cache directory: a map from
      entry names to files and directories.  A cache key with a "/" in
      it names a path beyond the entries of the directory; what is
      there is left to the environment. *)

From Stdlib Require Import ZArith QArith Qround String Ascii List Lia Bool.
From stdpp Require Import gmap strings.
Import ListNotations.

Set Warnings "-register-all".
Local Open Scope Z_scope.

(** ** Exceptions and results *)

Module Py.

Inductive exc_class :=
| ValueError | TypeError | OverflowError | OSError
| JSONDecodeError | UnicodeDecodeError | ZeroDivisionError.

#[global] Instance exc_class_eq_dec : EqDecision exc_class.
Proof. solve_decision. Defined.

(** [subclass c k]: an exception of class [c] is caught by [except k].
    [json.JSONDecodeError] and [UnicodeDecodeError] both derive from
    [ValueError]. *)
Definition subclass (c k : exc_class) : bool :=
  bool_decide (c = k)
  || (bool_decide (k = ValueError)
      && (bool_decide (c = JSONDecodeError) || bool_decide (c = UnicodeDecodeError))).

Record exc := Exc { exc_type : exc_class; exc_msg : string }.

Inductive result (A : Type) :=
| Ok (a : A)
| Raise (e : exc).
Arguments Ok {A} a.
Arguments Raise {A} e.

#[global] Instance result_ret : MRet result := fun A a => Ok a.
#[global] Instance result_bind : MBind result := fun A B f m =>
  match m with
  | Ok a => f a
  | Raise e => Raise e
  end.

Definition catches (handled : list exc_class) (e : exc) : bool :=
  existsb (subclass (exc_type e)) handled.

(** [try: body except handled: handler] *)
Definition try_except {A} (body : result A) (handled : list exc_class)
    (handler : result A) : result A :=
  match body with
  | Ok a => Ok a
  | Raise e => if catches handled e then handler else Raise e
  end.

(** ** Text *)

(** [str.isspace], which is also [\s] and what [str.strip] removes:
    TAB..CR, FS..US, the space, NEL (133) and the no-break space (160). *)
Definition isspace (c : ascii) : bool :=
  let n := N_of_ascii c in
  (((9 <=? n) && (n <=? 13)) || ((28 <=? n) && (n <=? 32))
   || (n =? 133) || (n =? 160))%N.

(** [\d]: below code point 256 the ten ASCII digits and no other. *)
Definition isdigit (c : ascii) : bool :=
  let n := N_of_ascii c in ((48 <=? n) && (n <=? 57))%N.

(** [str.lower] on one character: A..Z, and the capital letters 192..222
    of Latin-1 (215, the multiplication sign, is no letter). *)
Definition lower_char (c : ascii) : ascii :=
  let n := N_of_ascii c in
  if (((65 <=? n) && (n <=? 90))
      || ((192 <=? n) && (n <=? 222) && negb (n =? 215)))%N
  then ascii_of_N (n + 32) else c.

Fixpoint lower (s : string) : string :=
  match s with
  | EmptyString => EmptyString
  | String c s' => String (lower_char c) (lower s')
  end.

Fixpoint lstrip (s : string) : string :=
  match s with
  | EmptyString => EmptyString
  | String c s' => if isspace c then lstrip s' else s
  end.

Fixpoint rstrip (s : string) : string :=
  match s with
  | EmptyString => EmptyString
  | String c s' =>
      match rstrip s' with
      | EmptyString => if isspace c then EmptyString else String c EmptyString
      | r => String c r
      end
  end.

Definition strip (s : string) : string := rstrip (lstrip s).

(** [c in s] for a one-character [c]. *)
Fixpoint contains (c : ascii) (s : string) : bool :=
  match s with
  | EmptyString => false
  | String a s' => Ascii.eqb a c || contains c s'
  end.

(** [s.split(c)[0]]: the text before the first [c] (all of [s] when there
    is none). *)
Fixpoint split_head (c : ascii) (s : string) : string :=
  match s with
  | EmptyString => EmptyString
  | String a s' => if Ascii.eqb a c then EmptyString else String a (split_head c s')
  end.

(** Decimal digits, most significant first. *)
Definition digit_value (c : ascii) : Z := Z.of_N (N_of_ascii c) - 48.

Fixpoint int_of_digits_from (acc : Z) (s : string) : Z :=
  match s with
  | EmptyString => acc
  | String c s' => int_of_digits_from (10 * acc + digit_value c) s'
  end.

(** The number a text of digits writes. *)
Definition int_of_digits (s : string) : Z := int_of_digits_from 0 s.

Fixpoint all_chars (p : ascii -> bool) (s : string) : bool :=
  match s with
  | EmptyString => true
  | String c s' => p c && all_chars p s'
  end.

(** [n] written with at least [width] digits, zero padded ([%0<width>d]),
    for [0 <= n]. *)
Fixpoint zero_pad_from (width : nat) (n : Z) (acc : string) : string :=
  match width with
  | O => acc
  | S w =>
      zero_pad_from w (n / 10)
        (String (ascii_of_N (Z.to_N (48 + n mod 10))) acc)
  end.

Definition zero_pad (width : nat) (n : Z) : string :=
  zero_pad_from width n EmptyString.

(** [str(n)] for an integer: its decimal digits, after "-" when it is
    negative. *)
Fixpoint digits_of (fuel : nat) (n : Z) (acc : string) : string :=
  let acc' := String (ascii_of_N (Z.to_N (48 + n mod 10))) acc in
  match fuel with
  | O => acc'
  | S fuel' => if n <? 10 then acc' else digits_of fuel' (n / 10) acc'
  end.

Definition str_of_nonneg (n : Z) : string :=
  digits_of (Z.to_nat (Z.log2 n)) n EmptyString.

Definition str_of_int (n : Z) : string :=
  if n <? 0 then "-" +:+ str_of_nonneg (- n) else str_of_nonneg n.

(** [sys.get_int_max_str_digits()], as the interpreter starts. *)
Definition INT_MAX_STR_DIGITS : nat := 4300.

Definition int_limit_message (digits : nat) : string :=
  "Exceeds the limit (4300 digits) for integer string conversion: value has "
  +:+ str_of_int (Z.of_nat digits)
  +:+ " digits; use sys.set_int_max_str_digits() to increase the limit".

(** [int(s)] for a text of digits: their value, and a [ValueError] when
    there are more of them than the limit. *)
Definition int_of_str (s : string) : result Z :=
  if (INT_MAX_STR_DIGITS <? String.length s)%nat
  then Raise (Exc ValueError (int_limit_message (String.length s)))
  else Ok (int_of_digits s).

(** ** Durations and instants *)

Definition US_PER_SECOND : Z := 1000000.
Definition US_PER_HOUR : Z := 3600 * US_PER_SECOND.
Definition US_PER_DAY : Z := 24 * US_PER_HOUR.
Definition US_PER_WEEK : Z := 7 * US_PER_DAY.

(** [timedelta]: the total number of microseconds. *)
Record timedelta := Timedelta { td_us : Z }.

(** [timedelta.max.days]. *)
Definition MAX_DELTA_DAYS : Z := 999999999.

(** The constructor normalises to whole days plus a remainder and raises
    [OverflowError] when the days leave [-999999999 .. 999999999]. *)
Definition new_timedelta (us : Z) : result timedelta :=
  let days := us / US_PER_DAY in
  if (- MAX_DELTA_DAYS <=? days) && (days <=? MAX_DELTA_DAYS)
  then Ok (Timedelta us)
  else Raise (Exc OverflowError "days; must have magnitude <= 999999999").

(** [timedelta(hours=n)], [timedelta(days=n)], [timedelta(weeks=n)] for an
    integer [n]. *)
Definition timedelta_hours (n : Z) : result timedelta := new_timedelta (n * US_PER_HOUR).
Definition timedelta_days (n : Z) : result timedelta := new_timedelta (n * US_PER_DAY).
Definition timedelta_weeks (n : Z) : result timedelta := new_timedelta (n * US_PER_WEEK).

(** [d.total_seconds()] *)
Definition total_seconds (d : timedelta) : Q := td_us d # 1000000.

Definition td_ltb (a b : timedelta) : bool := td_us a <? td_us b.
Definition td_leb (a b : timedelta) : bool := td_us a <=? td_us b.

(** A parameter typed [Union[int, timedelta]]. *)
Inductive int_or_timedelta :=
| AsInt (n : Z)
| AsDelta (d : timedelta).

(** [if isinstance(duration, int): duration = timedelta(days=duration)] *)
Definition as_timedelta (duration : int_or_timedelta) : result timedelta :=
  match duration with
  | AsInt n => timedelta_days n
  | AsDelta d => Ok d
  end.

(** [a < b] on floats *)
Definition Qlt_bool (a b : Q) : bool := negb (Qle_bool b a).

(** [datetime] (aware, UTC): microseconds since 0001-01-01T00:00:00. *)
Record datetime := Datetime { dt_us : Z }.

(** [date.max.toordinal()]: the days from 0001-01-01 to 9999-12-31. *)
Definition MAX_ORDINAL : Z := 3652059.

Definition datetime_in_range (us : Z) : bool :=
  (0 <=? us) && (us <? MAX_ORDINAL * US_PER_DAY).

(** [a - b] for two instants: always a representable [timedelta]. *)
Definition dt_diff (a b : datetime) : timedelta := Timedelta (dt_us a - dt_us b).

(** [a - d] for an instant and a duration: [OverflowError] when the result
    leaves the years 1..9999. *)
Definition dt_minus (a : datetime) (d : timedelta) : result datetime :=
  let us := dt_us a - td_us d in
  if datetime_in_range us then Ok (Datetime us)
  else Raise (Exc OverflowError "date value out of range").

(** A calendar date. *)
Record date := Date { year : Z; month : Z; day : Z }.

Definition is_leap (y : Z) : bool :=
  (y mod 4 =? 0) && (negb (y mod 100 =? 0) || (y mod 400 =? 0)).

Definition days_in_month (y m : Z) : Z :=
  if m =? 2 then (if is_leap y then 29 else 28)
  else if (m =? 4) || (m =? 6) || (m =? 9) || (m =? 11) then 30
  else 31.

(** [date(y, m, d)] checks its fields. *)
Definition valid_date (y m d : Z) : bool :=
  (1 <=? y) && (y <=? 9999) && (1 <=? m) && (m <=? 12)
  && (1 <=? d) && (d <=? days_in_month y m).

(** Dates compare as (year, month, day). *)
Definition date_leb (a b : date) : bool :=
  (year a <? year b)
  || ((year a =? year b)
      && ((month a <? month b) || ((month a =? month b) && (day a <=? day b)))).

Definition date_ltb (a b : date) : bool := negb (date_leb b a).

(** The proleptic Gregorian date of a count of days since 0001-01-01
    ([date.fromordinal(n + 1)]). *)
Definition date_of_days (n : Z) : date :=
  let z := n + 306 in
  let era := z / 146097 in
  let doe := z mod 146097 in
  let yoe := (doe - doe / 1460 + doe / 36524 - doe / 146096) / 365 in
  let doy := doe - (365 * yoe + yoe / 4 - yoe / 100) in
  let mp := (5 * doy + 2) / 153 in
  let d := doy - (153 * mp + 2) / 5 + 1 in
  let m := if mp <? 10 then mp + 3 else mp - 9 in
  let y := yoe + era * 400 + (if m <=? 2 then 1 else 0) in
  Date y m d.

(** The days from 0001-01-01 to a date ([d.toordinal() - 1]). *)
Definition days_of_date (d : date) : Z :=
  let y := if month d <=? 2 then year d - 1 else year d in
  let era := y / 400 in
  let yoe := y mod 400 in
  let mp := (month d + 9) mod 12 in
  let doy := (153 * mp + 2) / 5 + day d - 1 in
  let doe := yoe * 365 + yoe / 4 - yoe / 100 + doy in
  era * 146097 + doe - 306.

(** [dt.date()] *)
Definition date_of (t : datetime) : date := date_of_days (dt_us t / US_PER_DAY).

(** [d.isoformat()]: YYYY-MM-DD. *)
Definition date_isoformat (d : date) : string :=
  zero_pad 4 (year d) +:+ "-" +:+ zero_pad 2 (month d) +:+ "-" +:+ zero_pad 2 (day d).

(** [dt.isoformat()] of an aware UTC instant:
    YYYY-MM-DDTHH:MM:SS[.ffffff]+00:00. *)
Definition datetime_isoformat (t : datetime) : string :=
  let rest := dt_us t mod US_PER_DAY in
  let secs := rest / US_PER_SECOND in
  let frac := rest mod US_PER_SECOND in
  date_isoformat (date_of t) +:+ "T"
  +:+ zero_pad 2 (secs / 3600) +:+ ":" +:+ zero_pad 2 (secs / 60 mod 60)
  +:+ ":" +:+ zero_pad 2 (secs mod 60)
  +:+ (if frac =? 0 then "" else "." +:+ zero_pad 6 frac)
  +:+ "+00:00".

End Py.

(** ** scripts/lib/cache.py *)

Module cache.
Import Py.

(** A JSON value, as [json.load] builds it and [json.dump] writes it.
    Python's [None] is [JNull]; a [dict] is a [JObj]. *)
Inductive json :=
| JNull
| JBool (b : bool)
| JNum (q : Q)
| JStr (s : string)
| JArr (l : list json)
| JObj (m : gmap string json).

(** *** The cache directory *)

(** An entry of the cache directory: a file with what [json.load] makes
    of its bytes (a value, text that is not a JSON document, or bytes
    that do not decode as text), or a sub-directory. *)
Inductive file_data :=
| JsonText (j : json)
| Malformed
| Undecodable
| Directory.

(** [st_mtime] is the time stamp as [datetime.fromtimestamp] reads it;
    a time stamp outside the years of a [datetime] is outside the
    embedding. *)
Record file := File { st_mtime : datetime; data : file_data }.

(** The cache directory [~/.cache/last2hours]: whether it exists, and its
    entries by name. *)
Record disk := Disk { dir_exists : bool; files : gmap string file }.

(** A path as the module builds it from [CACHE_DIR]: an entry of the
    cache directory, by its name; a text that holds a NUL, which no
    system call takes ([ValueError: embedded null byte]); or a text with
    a "/" in it, which leads through a sub-directory, up with "..", or
    away from the root. *)
Inductive path :=
| Child (name : string)
| Unencodable
| Beyond (text : string).

(** The operating system's refusals during one call: of [mkdir]; of the
    [stat] inside [Path.exists()], with an error that [exists] does not
    take for an absent file ([EACCES], say) and raises again; of the
    [stat] that reads the time stamp; of [open] for reading and for
    writing; and of the write itself. *)
Record faults := Faults {
  mkdir_fails : bool;
  exists_fails : bool;
  stat_fails : bool;
  open_read_fails : bool;
  open_write_fails : bool;
  dump_fails : bool
}.

Definition no_faults : faults := Faults false false false false false false.

(** What the rest of the file system does with a path that leaves the
    cache directory.  The embedding does not describe it: each answer is
    a parameter, and writing there may change the cache directory too
    (the path may come back into it). *)
Record outside := Outside {
  out_exists : string -> result bool;
  out_mtime : string -> result datetime;
  out_read : string -> result json;
  out_write : string -> json -> disk -> result unit * disk
}.

(** The surroundings of a call: the clock when the call reads it, the
    refusals, the rest of the file system, and the clock when the call
    reads it a second time. *)
Record env := Env {
  now : datetime;
  flt : faults;
  out : outside;
  now_again : datetime
}.

(** A computation that reads the surroundings, changes the disk and may
    raise. *)
Definition io (A : Type) : Type := env -> disk -> result A * disk.

Definition io_ret {A} (a : A) : io A := fun _ d => (Ok a, d).

Definition io_bind {A B} (m : io A) (f : A -> io B) : io B := fun e d =>
  match m e d with
  | (Ok a, d') => f a e d'
  | (Raise x, d') => (Raise x, d')
  end.


(** [try: body except handled: handler]; what [body] did to the disk
    before raising stays done. *)
Definition io_try {A} (body : io A) (handled : list exc_class) (handler : io A) : io A :=
  fun e d =>
    match body e d with
    | (Ok a, d') => (Ok a, d')
    | (Raise x, d') => if catches handled x then handler e d' else (Raise x, d')
    end.

(** [m], run where the clock has already been read once. *)
Definition later {A} (m : io A) : io A := fun e d =>
  m (Env (now_again e) (flt e) (out e) (now_again e)) d.

#[global] Instance io_mret : MRet io := @io_ret.
#[global] Instance io_mbind : MBind io := fun A B f m => io_bind m f.

Definition os_error (msg : string) : exc := Exc OSError msg.

Definition null_byte : exc := Exc ValueError "embedded null byte".

(** [datetime.now(timezone.utc)] *)
Definition datetime_now : io datetime := fun e d => (Ok (now e), d).

(** [path.exists()]: [stat], with [False] for an absent entry and for a
    text that holds a NUL. *)
Definition path_exists (p : path) : io bool := fun e d =>
  match p with
  | Child name =>
      if exists_fails (flt e) then (Raise (os_error "stat"), d)
      else (Ok (bool_decide (is_Some (files d !! name))), d)
  | Unencodable => (Ok false, d)
  | Beyond text => (out_exists (out e) text, d)
  end.

(** [datetime.fromtimestamp(path.stat().st_mtime, tz=timezone.utc)] *)
Definition path_mtime (p : path) : io datetime := fun e d =>
  match p with
  | Child name =>
      if stat_fails (flt e) then (Raise (os_error "stat"), d)
      else match files d !! name with
           | Some f => (Ok (st_mtime f), d)
           | None => (Raise (os_error "No such file or directory"), d)
           end
  | Unencodable => (Raise null_byte, d)
  | Beyond text => (out_mtime (out e) text, d)
  end.

(** [with open(p, 'r') as f: json.load(f)] *)
Definition read_json (p : path) : io json := fun e d =>
  match p with
  | Child name =>
      if open_read_fails (flt e) then (Raise (os_error "open"), d)
      else match files d !! name with
           | None => (Raise (os_error "No such file or directory"), d)
           | Some f =>
               match data f with
               | JsonText j => (Ok j, d)
               | Malformed => (Raise (Exc JSONDecodeError "Expecting value"), d)
               | Undecodable => (Raise (Exc UnicodeDecodeError "invalid start byte"), d)
               | Directory => (Raise (os_error "Is a directory"), d)
               end
           end
  | Unencodable => (Raise null_byte, d)
  | Beyond text => (out_read (out e) text, d)
  end.

Definition is_dir_entry (f : file) : bool :=
  match data f with
  | Directory => true
  | _ => false
  end.

Definition is_directory (d : disk) (name : string) : bool :=
  match files d !! name with
  | Some f => is_dir_entry f
  | None => false
  end.

(** [with open(p, 'w') as f: json.dump(j, f)]: opening truncates the
    file; a failure while dumping leaves text that is no JSON document. *)
Definition write_json (p : path) (j : json) : io unit := fun e d =>
  match p with
  | Child name =>
      if open_write_fails (flt e) || negb (dir_exists d) then (Raise (os_error "open"), d)
      else if is_directory d name then (Raise (os_error "Is a directory"), d)
      else if dump_fails (flt e)
      then (Raise (os_error "write"),
            Disk (dir_exists d) (<[name := File (now e) Malformed]> (files d)))
      else (Ok tt, Disk (dir_exists d) (<[name := File (now e) (JsonText j)]> (files d)))
  | Unencodable => (Raise null_byte, d)
  | Beyond text => out_write (out e) text j d
  end.

(** [CACHE_DIR.mkdir(parents=True, exist_ok=True, mode=0o700)] *)
Definition mkdir_cache_dir : io unit := fun e d =>
  if mkdir_fails (flt e) then (Raise (os_error "mkdir"), d)
  else (Ok tt, Disk true (files d)).


(** *** The module *)

Definition DEFAULT_TTL_HOURS : Q := 24.
Definition MODEL_CACHE_TTL_DAYS : Q := 7.
Definition MIN_TTL_MINUTES : Q := 15.

Definition calculate_ttl (duration : int_or_timedelta) : result Q :=
  duration ← as_timedelta duration;
  let total_hours := (total_seconds duration / 3600)%Q in
  if Qle_bool total_hours 2 then Ok (1 # 2)%Q
  else if Qle_bool total_hours 6 then Ok 1%Q
  else if Qle_bool total_hours 24 then Ok 2%Q
  else if Qle_bool total_hours 72 then Ok 6%Q
  else if Qle_bool total_hours 168 then Ok 12%Q
  else Ok DEFAULT_TTL_HOURS.

Definition ensure_cache_dir : io unit := mkdir_cache_dir.

(** [CACHE_DIR / f"{cache_key}.json"] *)
Definition get_cache_path (cache_key : string) : path :=
  let name := cache_key +:+ ".json" in
  if contains "000" name then Unencodable
  else if contains "/" name then Beyond name
  else Child name.

Definition is_cache_valid (cache_path : path) (ttl_hours : Q) : io bool :=
  found ← path_exists cache_path;
  if negb found then io_ret false
  else
    io_try
      (mtime ← path_mtime cache_path;
       now ← datetime_now;
       let age_hours := (total_seconds (dt_diff now mtime) / 3600)%Q in
       io_ret (Qlt_bool age_hours ttl_hours))
      [OSError]
      (io_ret false).

Definition load_cache (cache_key : string) (ttl_hours : Q) : io json :=
  let cache_path := get_cache_path cache_key in
  valid ← is_cache_valid cache_path ttl_hours;
  if negb valid then io_ret JNull
  else io_try (read_json cache_path) [JSONDecodeError; OSError] (io_ret JNull).

Definition save_cache (cache_key : string) (data : json) : io unit :=
  _ ← ensure_cache_dir;
  let cache_path := get_cache_path cache_key in
  io_try (write_json cache_path data) [OSError] (io_ret tt).

(** [CACHE_DIR / "model_selection.json"], by its name in the cache
    directory. *)
Definition MODEL_CACHE_FILE : string := "model_selection.json".

Definition load_model_cache : io json :=
  valid ← is_cache_valid (Child MODEL_CACHE_FILE) (MODEL_CACHE_TTL_DAYS * 24)%Q;
  if negb valid then io_ret (JObj ∅)
  else io_try (read_json (Child MODEL_CACHE_FILE)) [JSONDecodeError; OSError]
         (io_ret (JObj ∅)).



End cache.

(** ** scripts/lib/dates.py *)

Module dates.
Import Py.

(** [x in (a, b, c)] for texts. *)
Definition str_in (x : string) (l : list string) : bool := existsb (String.eqb x) l.

(** *** parse_range *)

(** The longest prefix of characters satisfying [p], and the rest: what a
    greedy [p+] or [p*] takes first. *)
Fixpoint span (p : ascii -> bool) (s : string) : string * string :=
  match s with
  | EmptyString => (EmptyString, EmptyString)
  | String c s' =>
      if p c then let '(a, b) := span p s' in (String c a, b)
      else (EmptyString, s)
  end.

Definition RANGE_UNITS : list string :=
  ["h"; "hour"; "hours"; "d"; "day"; "days"; "w"; "week"; "weeks";
   "mo"; "month"; "months"].

(** [s] without one final newline: where [$] may match. *)
Fixpoint before_final_newline (s : string) : string :=
  match s with
  | EmptyString => EmptyString
  | String c EmptyString => if Ascii.eqb c "010" then EmptyString else s
  | String c s' => String c (before_final_newline s')
  end.

(** [re.match(r'^(\d+)\s*(h|hours?|d|days?|w|weeks?|mo|months?)$', s)]:
    groups 1 and 2 of the match.  Digits, blanks and the letters of the
    units are disjoint, so the greedy split is the only one that can
    match. *)
Definition match_range (s : string) : option (string * string) :=
  let '(digits, rest) := span isdigit s in
  match digits with
  | EmptyString => None
  | _ =>
      let '(_, tail) := span isspace rest in
      let unit := before_final_newline tail in
      if str_in unit RANGE_UNITS then Some (digits, unit) else None
  end.

Definition invalid_range_message (range_str : string) : string :=
  "Invalid range format: '" +:+ range_str
  +:+ "'. Use formats like '2 hours', '3 days', '2 weeks', '6 months'".

Definition parse_range (range_str : string) : result timedelta :=
  let range_str := lower (strip range_str) in
  match match_range range_str with
  | None => Raise (Exc ValueError (invalid_range_message range_str))
  | Some (group1, unit) =>
      amount ← int_of_str group1;
      if str_in unit ["h"; "hour"; "hours"] then timedelta_hours amount
      else if str_in unit ["d"; "day"; "days"] then timedelta_days amount
      else if str_in unit ["w"; "week"; "weeks"] then timedelta_weeks amount
      else if str_in unit ["mo"; "month"; "months"] then timedelta_days (amount * 30)
      else Raise (Exc ValueError ("Unknown time unit: '" +:+ unit +:+ "'"))
  end.

(** *** get_date_range *)

Definition get_date_range (duration : int_or_timedelta) (now : datetime)
    : result (string * string) :=
  duration ← as_timedelta duration;
  from_dt ← dt_minus now duration;
  if td_ltb duration (Timedelta US_PER_DAY)
  then Ok (datetime_isoformat from_dt, datetime_isoformat now)
  else Ok (date_isoformat (date_of from_dt), date_isoformat (date_of now)).

(** *** strptime at "%Y-%m-%d" *)

Definition digit_between (lo hi : N) (c : ascii) : bool :=
  let n := N_of_ascii c in ((48 + lo <=? n) && (n <=? 48 + hi))%N.

(** [(?P<Y>\d\d\d\d)] *)
Definition take_year (s : string) : option (Z * string) :=
  match s with
  | String a (String b (String c (String d rest))) =>
      if isdigit a && isdigit b && isdigit c && isdigit d
      then Some (int_of_digits (String a (String b (String c (String d EmptyString)))), rest)
      else None
  | _ => None
  end.

(** The ways [(?P<m>1[0-2]|0[1-9]|[1-9])] matches a prefix of [s], in the
    order the alternatives are tried. *)
Definition month_matches (s : string) : list (Z * string) :=
  match s with
  | EmptyString => []
  | String a rest =>
      (match rest with
       | String b rest' =>
           (if Ascii.eqb a "1" && digit_between 0 2 b
            then [(10 + digit_value b, rest')] else [])
           ++ (if Ascii.eqb a "0" && digit_between 1 9 b
               then [(digit_value b, rest')] else [])
       | EmptyString => []
       end)
      ++ (if digit_between 1 9 a then [(digit_value a, rest)] else [])
  end.

(** The ways [(?P<d>3[0-1]|[1-2]\d|0[1-9]|[1-9]| [1-9])] matches a prefix
    of [s], in the order the alternatives are tried. *)
Definition day_matches (s : string) : list (Z * string) :=
  match s with
  | EmptyString => []
  | String a rest =>
      (match rest with
       | String b rest' =>
           (if Ascii.eqb a "3" && digit_between 0 1 b
            then [(30 + digit_value b, rest')] else [])
           ++ (if digit_between 1 2 a && isdigit b
               then [(10 * digit_value a + digit_value b, rest')] else [])
           ++ (if Ascii.eqb a "0" && digit_between 1 9 b
               then [(digit_value b, rest')] else [])
       | EmptyString => []
       end)
      ++ (if digit_between 1 9 a then [(digit_value a, rest)] else [])
      ++ (match rest with
          | String b rest' =>
              if Ascii.eqb a " " && digit_between 1 9 b
              then [(digit_value b, rest')] else []
          | EmptyString => []
          end)
  end.

(** The first way to match [-(?P<d>...)] after one of the month's
    matches: the regular expression backtracks over the month. *)
Fixpoint first_month_day (months : list (Z * string)) : option (Z * Z * string) :=
  match months with
  | [] => None
  | (m, String "-" rest) :: months' =>
      match day_matches rest with
      | (d, rest') :: _ => Some (m, d, rest')
      | [] => first_month_day months'
      end
  | _ :: months' => first_month_day months'
  end.

Definition value_error (msg : string) : exc := Exc ValueError msg.

(** [datetime.strptime(s, "%Y-%m-%d").date()]: the text must match the
    format's pattern from its start, nothing may remain, and the fields
    must make a date. *)
Definition strptime_date (s : string) : result date :=
  match take_year s with
  | Some (y, String "-" rest) =>
      match first_month_day (month_matches rest) with
      | Some (m, d, EmptyString) =>
          if valid_date y m d then Ok (Date y m d)
          else Raise (value_error "day is out of range for month")
      | Some _ => Raise (value_error "unconverted data remains")
      | None => Raise (value_error "time data does not match format")
      end
  | _ => Raise (value_error "time data does not match format")
  end.

(** *** get_date_confidence *)

Definition get_date_confidence (date_str : option string) (from_date to_date : string)
    : result string :=
  match date_str with
  | None | Some EmptyString => Ok "low"%string
  | Some date_str =>
      try_except
        (dt ← strptime_date date_str;
         start ← strptime_date from_date;
         end_ ← strptime_date to_date;
         if date_leb start dt && date_leb dt end_ then Ok "high"%string
         else if date_ltb dt start then Ok "low"%string
         else Ok "low"%string)
        [ValueError]
        (Ok "low"%string)
  end.

(** *** parse_date *)

(** The library calls of [parse_date]: [float(text)], which raises
    [ValueError] on text that is no number;
    [datetime.fromtimestamp(ts, tz=timezone.utc)], which raises
    [ValueError], [OverflowError] or [OSError] on a timestamp it cannot
    represent; and [datetime.strptime(text, format)] followed by
    [.replace(tzinfo=timezone.utc)], which raises [ValueError] on text
    that does not fit the format. *)
Record PyLib := {
  pyfloat : Type;
  float_of_str : string -> result pyfloat;
  fromtimestamp : pyfloat -> result datetime;
  strptime : string -> string -> result datetime
}.

Definition DATE_FORMATS : list string :=
  ["%Y-%m-%d"; "%Y-%m-%dT%H:%M:%S"; "%Y-%m-%dT%H:%M:%SZ";
   "%Y-%m-%dT%H:%M:%S%z"; "%Y-%m-%dT%H:%M:%S.%f%z"].

Section with_library.
Context (lib : PyLib).

(** [for fmt in formats: try: return strptime(...) except ValueError:
    continue], then [return None]. *)
Fixpoint try_formats (date_str : string) (formats : list string)
    : result (option datetime) :=
  match formats with
  | [] => Ok None
  | fmt :: formats' =>
      match lib.(strptime) date_str fmt with
      | Ok dt => Ok (Some dt)
      | Raise e =>
          if catches [ValueError] e then try_formats date_str formats'
          else Raise e
      end
  end.

Definition parse_date (date_str : option string) : result (option datetime) :=
  match date_str with
  | None | Some EmptyString => Ok None
  | Some date_str =>
      match (ts ← lib.(float_of_str) date_str; lib.(fromtimestamp) ts) with
      | Ok dt => Ok (Some dt)
      | Raise e =>
          if catches [ValueError; TypeError] e
          then try_formats date_str DATE_FORMATS
          else Raise e
      end
  end.

(** *** recency_score *)

(** [a / b] on floats *)
Definition float_div (a b : Q) : result Q :=
  if Qeq_bool b 0 then Raise (Exc ZeroDivisionError "float division by zero")
  else Ok (a / b)%Q.

(** [int(x)]: towards zero.  A float that rounding has left just under
    a whole number gives one less in Python than the exact quotient
    here: [int(100 * (1 - 0.8))] is 19. *)
Definition int_of_float (x : Q) : Z := Z.quot (Qnum x) (Z.pos (Qden x)).

Definition recency_score (date_str : option string) (max_duration : int_or_timedelta)
    (now : datetime) : result Z :=
  match date_str with
  | None | Some EmptyString => Ok 0
  | Some _ =>
      parsed ← parse_date date_str;
      match parsed with
      | None => Ok 0
      | Some parsed =>
          let age := dt_diff now parsed in
          max_duration ← as_timedelta max_duration;
          if Qlt_bool (total_seconds age) 0 then Ok 100
          else if td_leb max_duration age then Ok 0
          else
            ratio ← float_div (total_seconds age) (total_seconds max_duration);
            Ok (int_of_float (100 * (1 - ratio))%Q)
      end
  end.

End with_library.

End dates.

(** ** scripts/lib/normalize.py *)

Module normalize.
Import Py.

(** *** urllib.parse.urlparse: scheme and network location *)

Record ParseResult := { scheme : string; netloc : string; rest : string }.

(** [url.lstrip(_WHATWG_C0_CONTROL_OR_SPACE)]: the characters up to the
    space. *)
Fixpoint lstrip_c0 (s : string) : string :=
  match s with
  | EmptyString => EmptyString
  | String c s' => if (N_of_ascii c <=? 32)%N then lstrip_c0 s' else s
  end.

(** Tab, carriage return and newline are removed wherever they stand. *)
Definition is_unsafe (c : ascii) : bool :=
  Ascii.eqb c "009" || Ascii.eqb c "013" || Ascii.eqb c "010".

Fixpoint remove_unsafe (s : string) : string :=
  match s with
  | EmptyString => EmptyString
  | String c s' => if is_unsafe c then remove_unsafe s' else String c (remove_unsafe s')
  end.

Definition isalpha (c : ascii) : bool :=
  let n := N_of_ascii c in
  (((65 <=? n) && (n <=? 90)) || ((97 <=? n) && (n <=? 122)))%N.

(** [c in scheme_chars] *)
Definition is_scheme_char (c : ascii) : bool :=
  isalpha c || isdigit c || Ascii.eqb c "+" || Ascii.eqb c "-" || Ascii.eqb c ".".

(** [i = url.find(':')], as [(url[:i], url[i+1:])]. *)
Fixpoint split_colon (s : string) : option (string * string) :=
  match s with
  | EmptyString => None
  | String c s' =>
      if Ascii.eqb c ":" then Some (EmptyString, s')
      else match split_colon s' with
           | Some (a, b) => Some (String c a, b)
           | None => None
           end
  end.

Definition split_scheme (url : string) : string * string :=
  match split_colon url with
  | Some (String c _ as head, tail) =>
      if isalpha c && all_chars is_scheme_char head then (lower head, tail)
      else (EmptyString, url)
  | _ => (EmptyString, url)
  end.

Definition is_delim (c : ascii) : bool :=
  Ascii.eqb c "/" || Ascii.eqb c "?" || Ascii.eqb c "#".

(** [_splitnetloc(url, 2)] on the text after the two slashes. *)
Definition splitnetloc (s : string) : string * string :=
  dates.span (fun c => negb (is_delim c)) s.

(** [url[:2] == '//']: the text after the two slashes. *)
Definition after_slashes (url : string) : option string :=
  match url with
  | String a (String b after) =>
      if Ascii.eqb a "/" && Ascii.eqb b "/" then Some after else None
  | _ => None
  end.

Section urlparse.
(** The check of a network location that holds both brackets
    ([_check_bracketed_netloc]: an IPv6 or IPvFuture literal, validated
    with the [ipaddress] module); [false] stands for its [ValueError]. *)
Context (bracketed_netloc_ok : string -> bool).

Definition urlparse (url : string) : result ParseResult :=
  let url := remove_unsafe (lstrip_c0 url) in
  let '(scheme, url) := split_scheme url in
  match after_slashes url with
  | Some after =>
      let '(netloc, url) := splitnetloc after in
      let open := contains "[" netloc in
      let close := contains "]" netloc in
      if xorb open close then Raise (Exc ValueError "Invalid IPv6 URL")
      else if open && close && negb (bracketed_netloc_ok netloc)
      then Raise (Exc ValueError "Invalid IPv6 URL")
      else Ok {| scheme := scheme; netloc := netloc; rest := url |}
  | None => Ok {| scheme := scheme; netloc := EmptyString; rest := url |}
  end.

(** [bool(s)] for a text. *)
Definition nonempty (s : string) : bool :=
  match s with
  | EmptyString => false
  | _ => true
  end.

Definition is_valid_url (url : string) : bool :=
  if negb (nonempty url) then false
  else
    match urlparse url with
    | Ok parsed => dates.str_in (scheme parsed) ["http"; "https"] && nonempty (netloc parsed)
    | Raise _ => false
    end.

Definition is_valid_reddit_url (url : string) : bool :=
  if negb (is_valid_url url) then false
  else
    match urlparse url with
    | Ok parsed => dates.str_in (netloc parsed) ["reddit.com"; "www.reddit.com"; "old.reddit.com"]
    | Raise _ => false
    end.

Definition is_valid_x_url (url : string) : bool :=
  if negb (is_valid_url url) then false
  else
    match urlparse url with
    | Ok parsed =>
        dates.str_in (netloc parsed) ["x.com"; "www.x.com"; "twitter.com"; "www.twitter.com"]
    | Raise _ => false
    end.

End urlparse.

(** *** urllib.parse: the host of a network location *)

(** [s.rpartition(c)[2]]: the text after the last [c] (all of [s] when
    there is none). *)
Fixpoint after_last (c : ascii) (s : string) : string :=
  match s with
  | EmptyString => EmptyString
  | String a s' =>
      if contains c s' then after_last c s'
      else if Ascii.eqb a c then s' else s
  end.

(** [s.partition(c)[2]]: the text after the first [c] (empty when there
    is none). *)
Fixpoint after_first (c : ascii) (s : string) : string :=
  match s with
  | EmptyString => EmptyString
  | String a s' => if Ascii.eqb a c then s' else after_first c s'
  end.

(** [ParseResult._hostinfo[0]]: what follows the user information, up
    to the port; between the brackets when there is one. *)
Definition hostinfo_name (netloc : string) : string :=
  let hostinfo := after_last "@" netloc in
  if contains "[" hostinfo then split_head "]" (after_first "[" hostinfo)
  else split_head ":" hostinfo.

(** [ParseResult.hostname]: [None] when there is no host, and otherwise
    the host in lower case, a zone after "%" left as it is. *)
Definition hostname (parsed : ParseResult) : option string :=
  let name := hostinfo_name (netloc parsed) in
  if negb (nonempty name) then None
  else Some (lower (split_head "%" name)
             +:+ (if contains "%" name then "%" +:+ after_first "%" name
                  else EmptyString)).

(** *** The hard date filter *)

Definition _normalize_date_for_comparison (date_str : string) : string :=
  if negb (nonempty date_str) then EmptyString
  else if contains "T" date_str then split_head "T" date_str
  else date_str.

Section filter.
(** The item classes of [schema] ([RedditItem], [XItem], [WebSearchItem]):
    any type with a [date] attribute that is a text or [None]. *)
Context {T : Type} (date : T -> option string).

(** The body of [for item in items], with [result] as it stands. *)
Fixpoint filter_loop (from_date_normalized to_date_normalized : string)
    (require_date : bool) (items : list T) (result : list T) : list T :=
  match items with
  | [] => result
  | item :: items' =>
      let continue := filter_loop from_date_normalized to_date_normalized require_date items' in
      match date item with
      | None => if negb require_date then continue (result ++ [item]) else continue result
      | Some d =>
          let item_date_normalized := _normalize_date_for_comparison d in
          if String.ltb item_date_normalized from_date_normalized then continue result
          else if String.ltb to_date_normalized item_date_normalized then continue result
          else continue (result ++ [item])
      end
  end.

Definition filter_by_date_range (items : list T) (from_date to_date : string)
    (require_date : bool) : list T :=
  let from_date_normalized := _normalize_date_for_comparison from_date in
  let to_date_normalized := _normalize_date_for_comparison to_date in
  filter_loop from_date_normalized to_date_normalized require_date items [].

End filter.

End normalize.

(** ** The specification's step function and sample data *)

Module Spec.
Import Py.

(** [ttlFor] as the specification words it, on the window's length:
    up to 2 h gives 0.5 h, up to 6 h gives 1 h, up to 24 h gives 2 h, up
    to 3 d gives 6 h, up to 7 d gives 12 h, anything longer 24 h. *)
Definition ttlFor (window : timedelta) : Q :=
  let us := td_us window in
  if us <=? 2 * US_PER_HOUR then (1 # 2)%Q
  else if us <=? 6 * US_PER_HOUR then 1%Q
  else if us <=? 24 * US_PER_HOUR then 2%Q
  else if us <=? 3 * US_PER_DAY then 6%Q
  else if us <=? 7 * US_PER_DAY then 12%Q
  else 24%Q.

(** "An unsigned integer followed by a recognized unit token": digits,
    optional blanks, one of the twelve unit words, and nothing else. *)
Definition range_syntax (text : string) : Prop :=
  exists digits blanks unit,
    text = digits +:+ blanks +:+ unit
    /\ digits <> EmptyString
    /\ all_chars isdigit digits = true
    /\ all_chars isspace blanks = true
    /\ In unit dates.RANGE_UNITS.

(** The digits of the amount in a text of that syntax. *)
Definition range_amount (text digits : string) : Prop :=
  exists blanks unit,
    text = digits +:+ blanks +:+ unit
    /\ digits <> EmptyString
    /\ all_chars isdigit digits = true
    /\ all_chars isspace blanks = true
    /\ In unit dates.RANGE_UNITS.

(** The first character of [s] fails [p], or [s] is empty. *)
Definition stops (p : ascii -> bool) (s : string) : Prop :=
  match s with
  | EmptyString => True
  | String c _ => p c = false
  end.

(** No blank at the end. *)
Definition trimmed (s : string) : Prop := rstrip s = s.

(** The duration a unit word and an amount stand for: hours, days,
    weeks of 7 days, months of 30 days. *)
Definition unit_delta (unit : string) (amount : Z) : result timedelta :=
  if dates.str_in unit ["h"; "hour"; "hours"] then timedelta_hours amount
  else if dates.str_in unit ["d"; "day"; "days"] then timedelta_days amount
  else if dates.str_in unit ["w"; "week"; "weeks"] then timedelta_weeks amount
  else timedelta_days (amount * 30).


(** What the hard filter keeps, as the specification words it: an item
    without a date only when no date is required; an item with a date
    unless its date-only text sorts strictly before that of [from_date]
    or strictly after that of [to_date]. *)
Definition kept {T : Type} (date : T -> option string) (from_date to_date : string)
    (require_date : bool) (item : T) : bool :=
  match date item with
  | None => negb require_date
  | Some d =>
      let day := normalize._normalize_date_for_comparison d in
      negb (String.ltb day (normalize._normalize_date_for_comparison from_date))
      && negb (String.ltb (normalize._normalize_date_for_comparison to_date) day)
  end.

(** A cache key that names an entry of the cache directory: no "/" and
    no NUL in it, as in the keys [get_cache_key] makes. *)
Definition plain_key (key : string) : Prop :=
  contains "000" key = false /\ contains "/" key = false.

(** A time to live of a whole number of half hours, up to 7 x 24 hours:
    the values the module itself uses (0.5, 1, 2, 6, 12, 24 and 168)
    are of this kind. *)
Definition half_hours (ttl : Q) : Prop :=
  exists k : Z, 1 <= k <= 336 /\ (ttl == inject_Z k / 2)%Q.

(** The age of a file in microseconds, as the clock of [e] sees it. *)
Definition age_us (e : cache.env) (f : cache.file) : Z :=
  dt_us (cache.now e) - dt_us (cache.st_mtime f).


End Spec.

Module samples.
Import Py cache.

(** 2026-01-15T00:00:00 UTC *)
Definition jan15 : datetime := Datetime (739630 * US_PER_DAY).



(** Nothing is found outside the cache directory. *)
Definition nothing_outside : outside :=
  Outside (fun _ => Ok false)
    (fun _ => Raise (os_error "No such file or directory"))
    (fun _ => Raise (os_error "No such file or directory"))
    (fun _ _ d => (Raise (os_error "No such file or directory"), d)).

Definition quiet : env := Env jan15 no_faults nothing_outside jan15.

(** The cache directory cannot be created (a read-only home, say). *)
Definition read_only_home : env :=
  Env jan15 (Faults true false false false false false) nothing_outside jan15.


(** The cache directory cannot be searched: [stat] on its entries is
    refused with [EACCES]. *)
Definition no_search_permission : env :=
  Env jan15 (Faults false true false false false false) nothing_outside jan15.

(** The preference file can be found and not opened for reading. *)
Definition read_refused : env :=
  Env jan15 (Faults false false false true false false) nothing_outside jan15.

(** A cache entry written one hour before [jan15] whose bytes are not
    text. *)
Definition garbled_cache : disk :=
  Disk true
    {[ "0123456789abcdef.json"%string :=
         File (Datetime (739630 * US_PER_DAY - US_PER_HOUR)) Undecodable ]}.


Definition no_cache_dir : disk := Disk false ∅.

(** A fragment of the library, enough to run [parse_date]: [float] reads
    "inf" and whole seconds written in digits, [fromtimestamp] refuses
    the infinite timestamp with [OverflowError] and a year past 9999
    with [ValueError], and [strptime] knows the date-only format. *)
Inductive sample_float :=
| Seconds (n : Z)
| Infinity.

(** 1970-01-01, in days since 0001-01-01. *)
Definition EPOCH_DAYS : Z := 719162.

Definition sample_float_of_str (s : string) : result sample_float :=
  if String.eqb (lower (strip s)) "inf" then Ok Infinity
  else if normalize.nonempty s && all_chars isdigit s then Ok (Seconds (int_of_digits s))
  else Raise (Exc ValueError "could not convert string to float").

Definition sample_fromtimestamp (ts : sample_float) : result datetime :=
  match ts with
  | Infinity => Raise (Exc OverflowError "timestamp out of range for platform time_t")
  | Seconds n =>
      let us := EPOCH_DAYS * US_PER_DAY + n * US_PER_SECOND in
      if datetime_in_range us then Ok (Datetime us)
      else Raise (Exc ValueError "year is out of range")
  end.

Definition sample_strptime (s fmt : string) : result datetime :=
  if String.eqb fmt "%Y-%m-%d"
  then d ← dates.strptime_date s; Ok (Datetime (days_of_date d * US_PER_DAY))
  else Raise (Exc ValueError "time data does not match format").

Definition sample_lib : dates.PyLib :=
  {| dates.pyfloat := sample_float;
     dates.float_of_str := sample_float_of_str;
     dates.fromtimestamp := sample_fromtimestamp;
     dates.strptime := sample_strptime |}.

End samples.

(** ** The rest of scripts/lib/cache.py *)

Module cache_ext.
Import Py cache.

(** An exception that [Py.exc_class] does not list, next to the ones it
    does: [AttributeError], raised by a method call on a value that has
    no such method. *)
Inductive raised :=
| Builtin (e : exc)
| AttributeError (msg : string).

Inductive outcome (A : Type) :=
| Return (a : A)
| Throw (r : raised).
Arguments Return {A} a.
Arguments Throw {A} r.

Definition of_result {A} (r : result A) : outcome A :=
  match r with
  | Ok a => Return a
  | Raise e => Throw (Builtin e)
  end.

(** [d.get(key, default)]: only a [dict] has the method. *)
Definition dict_get (d : json) (key : string) (default : json) : outcome json :=
  match d with
  | JObj m =>
      match m !! key with
      | Some v => Return v
      | None => Return default
      end
  | _ => Throw (AttributeError "object has no attribute 'get'")
  end.

(** [s[:n]] *)
Fixpoint take (n : nat) (s : string) : string :=
  match n, s with
  | S n', String c s' => String c (take n' s')
  | _, _ => EmptyString
  end.

(** The text that is hashed: [f"{topic}|{from_date}|{to_date}|{sources}"]. *)
Definition key_data (topic from_date to_date sources : string) : string :=
  topic +:+ "|" +:+ from_date +:+ "|" +:+ to_date +:+ "|" +:+ sources.

Section hashing.
(** [hashlib.sha256(text.encode()).hexdigest()] *)
Context (sha256_hexdigest : string -> string).

Definition get_cache_key (topic from_date to_date sources : string) : string :=
  take 16 (sha256_hexdigest (key_data topic from_date to_date sources)).

End hashing.

Definition get_cache_age_hours (cache_path : path) : io (option Q) :=
  found ← path_exists cache_path;
  if negb found then io_ret None
  else
    io_try
      (mtime ← path_mtime cache_path;
       now ← datetime_now;
       io_ret (Some (total_seconds (dt_diff now mtime) / 3600)%Q))
      [OSError]
      (io_ret None).

(** The pair returned is [(data, age)], with [None] as [JNull] for the
    data and as [None] for the age.  [get_cache_age_hours] reads the
    clock again, after [is_cache_valid] has read it. *)
Definition load_cache_with_age (cache_key : string) (ttl_hours : Q) : io (json * option Q) :=
  let cache_path := get_cache_path cache_key in
  valid ← is_cache_valid cache_path ttl_hours;
  if negb valid then io_ret (JNull, None)
  else
    age ← later (get_cache_age_hours cache_path);
    io_try
      (j ← read_json cache_path; io_ret (j, age))
      [JSONDecodeError; OSError]
      (io_ret (JNull, None)).

(** [name] ends with [suffix]. *)
Fixpoint ends_with (suffix name : string) : bool :=
  String.eqb name suffix
  || match name with
     | EmptyString => false
     | String _ name' => ends_with suffix name'
     end.

(** What listing the cache directory does ([is_dir] and [scandir] inside
    [glob]): it gives the entries; it is refused with [PermissionError],
    which [glob] takes for an empty directory; or it fails with another
    [OSError], which [glob] raises. *)
Inductive listing :=
| Listed
| Denied
| Failed.

(** [if CACHE_DIR.exists(): for f in CACHE_DIR.glob("*.json"): try:
    f.unlink() except OSError: pass].  [glob] matches the names of the
    entries of the directory itself, hidden ones too, and lists them
    all before the first is removed.  [unlink_fails] tells the entries
    the operating system refuses to remove; it never removes a
    directory. *)
Definition clear_cache (listed : listing) (unlink_fails : string -> bool) : io unit :=
  fun e d =>
    if exists_fails (flt e) then (Raise (os_error "stat"), d)
    else if negb (dir_exists d) then (Ok tt, d)
    else
      match listed with
      | Failed => (Raise (os_error "scandir"), d)
      | Denied => (Ok tt, d)
      | Listed =>
          (Ok tt,
           Disk (dir_exists d)
             (filter (fun entry =>
                        negb (ends_with ".json" entry.1)
                        || unlink_fails entry.1
                        || is_dir_entry entry.2 = true)
                (files d)))
      end.

Definition get_cached_model (provider : string) : env -> disk -> outcome json * disk :=
  fun e d =>
    match load_model_cache e d with
    | (Ok cache, d') => (dict_get cache provider JNull, d')
    | (Raise x, d') => (Throw (Builtin x), d')
    end.

End cache_ext.

(** ** The rest of scripts/lib/dates.py *)

Module dates_ext.
Import Py dates.

(** ['s' if n != 1 else ''] *)
Definition plural (n : Z) : string := if n =? 1 then EmptyString else "s"%string.

Definition get_range_label (duration : timedelta) : string :=
  let total_seconds := total_seconds duration in
  let total_hours := (total_seconds / 3600)%Q in
  let total_days := (total_seconds / 86400)%Q in
  if Qlt_bool total_hours 24 then
    let hours := int_of_float total_hours in
    "last " +:+ str_of_int hours +:+ " hour" +:+ plural hours
  else if Qlt_bool total_days 7 then
    let days := int_of_float total_days in
    "last " +:+ str_of_int days +:+ " day" +:+ plural days
  else if Qlt_bool total_days 30 then
    let weeks := int_of_float (total_days / 7) in
    "last " +:+ str_of_int weeks +:+ " week" +:+ plural weeks
  else
    let months := int_of_float (total_days / 30) in
    "last " +:+ str_of_int months +:+ " month" +:+ plural months.

Section with_library.
Context (lib : PyLib).

Definition timestamp_to_date (ts : option (pyfloat lib)) : result (option string) :=
  match ts with
  | None => Ok None
  | Some ts =>
      try_except
        (dt ← lib.(fromtimestamp) ts;
         Ok (Some (date_isoformat (date_of dt))))
        [ValueError; TypeError; OSError]
        (Ok None)
  end.

End with_library.

(** [(today - dt).days]: the difference of the two ordinals. *)
Definition days_between (today dt : date) : Z := days_of_date today - days_of_date dt.

Definition days_ago (date_str : option string) (now : datetime) : result (option Z) :=
  match date_str with
  | None | Some EmptyString => Ok None
  | Some date_str =>
      try_except
        (dt ← strptime_date date_str;
         let today := date_of now in
         let delta := days_between today dt in
         Ok (Some delta))
        [ValueError]
        (Ok None)
  end.

End dates_ext.

(** ** Specification-side notions for the properties below *)

Module Spec2.
Import Py.

(** The number and the unit word [get_range_label] shows for a window,
    in microseconds: hours under a day, days under a week, weeks under
    30 days, months of 30 days from there on, each rounded down. *)
Definition label_parts (us : Z) : Z * string :=
  if us <? 24 * US_PER_HOUR then (us / US_PER_HOUR, "hour"%string)
  else if us <? 7 * US_PER_DAY then (us / US_PER_DAY, "day"%string)
  else if us <? 30 * US_PER_DAY then (us / US_PER_WEEK, "week"%string)
  else (us / (30 * US_PER_DAY), "month"%string).

(** The decimal digit of the units of [n], as a character. *)
Definition dg (n : Z) : ascii := ascii_of_N (Z.to_N (48 + n mod 10)).

(** The year and the days before the month of a date, counted from
    March 1 as [days_of_date] does. *)
Definition march_year (y m : Z) : Z := if m <=? 2 then y - 1 else y.
Definition march_offset (m : Z) : Z := (153 * ((m + 9) mod 12) + 2) / 5.

(** The day an instant falls on, as a count of days since 0001-01-01. *)
Definition day_number (t : datetime) : Z := dt_us t / US_PER_DAY.

(** The first day of the window that ends at [now] and lasts [delta]. *)
Definition first_day (now : datetime) (delta : timedelta) : Z :=
  (dt_us now - td_us delta) / US_PER_DAY.

(** The shape of a site's URL: once the leading control characters and
    blanks and every tab, carriage return and newline are dropped, a
    scheme that is "http" or "https" in any case, "://", one of the
    site's names, and then nothing or a text that starts with "/", "?"
    or "#". *)
Definition site_url (hosts : list string) (url : string) : Prop :=
  exists head host tail,
    normalize.remove_unsafe (normalize.lstrip_c0 url) = head +:+ "://" +:+ host +:+ tail
    /\ (lower head = "http"%string \/ lower head = "https"%string)
    /\ In host hosts
    /\ Spec.stops (fun c => negb (normalize.is_delim c)) tail.

End Spec2.

(** * Properties *)

(** ** cache.py *)

Module cache_proofs.
Import Py cache Spec.

Lemma hours_le (us h : Z) :
  Qle_bool (total_seconds (Timedelta us) / 3600) (h # 1) = (us <=? h * US_PER_HOUR).
Proof.
  apply eq_true_iff_eq. rewrite Qle_bool_iff, Z.leb_le.
  unfold total_seconds, Qle, Qdiv, Qmult, Qinv, US_PER_HOUR, US_PER_SECOND; simpl.
  lia.
Qed.

Lemma hours_lt (us : Z) (ttl : Q) :
  Qlt_bool (total_seconds (Timedelta us) / 3600) ttl = true
  <-> (inject_Z us < ttl * inject_Z US_PER_HOUR)%Q.
Proof.
  unfold Qlt_bool. rewrite negb_true_iff, <- not_true_iff_false, Qle_bool_iff.
  unfold total_seconds, Qle, Qlt, Qdiv, Qmult, Qinv, inject_Z, US_PER_HOUR, US_PER_SECOND.
  destruct ttl as [n dn]; simpl. nia.
Qed.

Lemma calculate_ttl_spec (d : timedelta) :
  calculate_ttl (AsDelta d) = Ok (Spec.ttlFor d).
Proof.
  destruct d as [us]. unfold calculate_ttl, Spec.ttlFor; simpl.
  rewrite !hours_le.
  change (72 * US_PER_HOUR) with (3 * US_PER_DAY).
  change (168 * US_PER_HOUR) with (7 * US_PER_DAY).
  repeat (destruct (_ <=? _); [reflexivity|]).
  reflexivity.
Qed.

Lemma ttlFor_monotone (d1 d2 : timedelta) :
  td_us d1 <= td_us d2 -> (Spec.ttlFor d1 <= Spec.ttlFor d2)%Q.
Proof.
  intros Hle. unfold Spec.ttlFor, US_PER_DAY, US_PER_HOUR, US_PER_SECOND.
  repeat match goal with
         | |- context [?a <=? ?b] => destruct (Z.leb_spec a b)
         end;
    try lia; unfold Qle; simpl; lia.
Qed.

(** C5. [calculate_ttl] on a duration is the specification's step
    function of the window length (0.5, 1, 2, 6, 12 and 24 hours for
    windows up to 2 h, 6 h, 24 h, 3 d, 7 d and longer); a longer window
    never gets a shorter time to live; and a window of exactly 2 h, 6 h,
    1 d, 3 d or 7 d falls in the lower bucket, one microsecond more in
    the next. *)
Theorem calculate_ttl_monotone_step :
  (forall d, calculate_ttl (AsDelta d) = Ok (Spec.ttlFor d))
  /\ (forall d1 d2, td_us d1 <= td_us d2 ->
      exists q1 q2,
        calculate_ttl (AsDelta d1) = Ok q1
        /\ calculate_ttl (AsDelta d2) = Ok q2
        /\ (q1 <= q2)%Q)
  /\ (calculate_ttl (AsDelta (Timedelta (2 * US_PER_HOUR))) = Ok (1 # 2)%Q
      /\ calculate_ttl (AsDelta (Timedelta (6 * US_PER_HOUR))) = Ok 1%Q
      /\ calculate_ttl (AsDelta (Timedelta US_PER_DAY)) = Ok 2%Q
      /\ calculate_ttl (AsDelta (Timedelta (3 * US_PER_DAY))) = Ok 6%Q
      /\ calculate_ttl (AsDelta (Timedelta (7 * US_PER_DAY))) = Ok 12%Q)
  /\ (calculate_ttl (AsDelta (Timedelta (2 * US_PER_HOUR + 1))) = Ok 1%Q
      /\ calculate_ttl (AsDelta (Timedelta (6 * US_PER_HOUR + 1))) = Ok 2%Q
      /\ calculate_ttl (AsDelta (Timedelta (US_PER_DAY + 1))) = Ok 6%Q
      /\ calculate_ttl (AsDelta (Timedelta (3 * US_PER_DAY + 1))) = Ok 12%Q
      /\ calculate_ttl (AsDelta (Timedelta (7 * US_PER_DAY + 1))) = Ok 24%Q).
Proof.
  split; [exact calculate_ttl_spec|].
  split.
  - intros d1 d2 Hle. exists (Spec.ttlFor d1), (Spec.ttlFor d2).
    rewrite !calculate_ttl_spec. auto using ttlFor_monotone.
  - split; repeat split; reflexivity.
Qed.

(** *** Paths *)

Lemma contains_append (c : ascii) (a b : string) :
  contains c (a +:+ b) = contains c a || contains c b.
Proof.
  induction a as [|x a IH]; [reflexivity|].
  change (String x a +:+ b) with (String x (a +:+ b)). cbn [contains].
  rewrite IH, orb_assoc. reflexivity.
Qed.

Lemma get_cache_path_plain (key : string) :
  plain_key key -> get_cache_path key = Child (key +:+ ".json").
Proof.
  intros [Hnul Hsep]. unfold get_cache_path. cbv zeta.
  rewrite !contains_append, Hnul, Hsep. reflexivity.
Qed.


(** *** Validity and loading *)

Lemma is_cache_valid_eq (name : string) (ttl : Q) (e : env) (d : disk) :
  is_cache_valid (Child name) ttl e d =
  if exists_fails (flt e) then (Raise (os_error "stat"), d)
  else
    (Ok match files d !! name with
        | None => false
        | Some f =>
            if stat_fails (flt e) then false
            else Qlt_bool (total_seconds (dt_diff (now e) (st_mtime f)) / 3600) ttl
        end, d).
Proof.
  unfold is_cache_valid, mbind, io_mbind, io_bind, path_exists, io_try, path_mtime,
    datetime_now, io_ret.
  destruct (exists_fails (flt e)); [reflexivity|].
  destruct (files d !! name) as [f|] eqn:Hf; simpl; [|reflexivity].
  rewrite Hf. destruct (stat_fails (flt e)); reflexivity.
Qed.

Lemma is_cache_valid_nul (ttl : Q) (e : env) (d : disk) :
  is_cache_valid Unencodable ttl e d = (Ok false, d).
Proof. reflexivity. Qed.

Lemma load_cache_eq (key : string) (ttl : Q) (e : env) (d : disk) :
  load_cache key ttl e d =
  match is_cache_valid (get_cache_path key) ttl e d with
  | (Ok true, d') =>
      io_try (read_json (get_cache_path key)) [JSONDecodeError; OSError] (io_ret JNull) e d'
  | (Ok false, d') => (Ok JNull, d')
  | (Raise x, d') => (Raise x, d')
  end.
Proof.
  unfold load_cache, mbind, io_mbind, io_bind.
  destruct (is_cache_valid _ ttl e d) as [[[|]|x] d']; reflexivity.
Qed.

(** What [load_cache] does with an entry of the cache directory. *)
Lemma load_cache_child (key : string) (ttl : Q) (e : env) (d : disk) :
  plain_key key ->
  load_cache key ttl e d =
  if exists_fails (flt e) then (Raise (os_error "stat"), d)
  else
    match files d !! (key +:+ ".json") with
    | None => (Ok JNull, d)
    | Some f =>
        if stat_fails (flt e) then (Ok JNull, d)
        else if Qlt_bool (total_seconds (dt_diff (now e) (st_mtime f)) / 3600) ttl
        then if open_read_fails (flt e) then (Ok JNull, d)
             else match data f with
                  | JsonText j => (Ok j, d)
                  | Malformed => (Ok JNull, d)
                  | Undecodable => (Raise (Exc UnicodeDecodeError "invalid start byte"), d)
                  | Directory => (Ok JNull, d)
                  end
        else (Ok JNull, d)
    end.
Proof.
  intros Hkey. rewrite load_cache_eq, (get_cache_path_plain key Hkey), is_cache_valid_eq.
  destruct (exists_fails (flt e)); [reflexivity|].
  destruct (files d !! (key +:+ ".json")) as [f|] eqn:Hf; [|reflexivity].
  destruct (stat_fails (flt e)); [reflexivity|].
  destruct (Qlt_bool _ ttl); [|reflexivity].
  unfold io_try, read_json. rewrite Hf.
  destruct (open_read_fails (flt e)); [reflexivity|].
  destruct (data f); reflexivity.
Qed.

Lemma fresh (e : env) (f : file) (ttl : Q) :
  (inject_Z (age_us e f) < ttl * inject_Z US_PER_HOUR)%Q ->
  Qlt_bool (total_seconds (dt_diff (now e) (st_mtime f)) / 3600) ttl = true.
Proof. intros H. unfold dt_diff. apply hours_lt. exact H. Qed.


(** C4 (what the code does). Two failures of the file system reach the
    caller instead of counting as a miss.  [Path.exists()] stands before
    the [try] of [is_cache_valid]: when its [stat] is refused with an
    error other than "no such file" (no permission to search the
    directory, say), [is_cache_valid] raises that [OSError], and so does
    [load_cache].  And [load_cache] catches [JSONDecodeError] and
    [OSError] only: a file younger than the time to live whose bytes do
    not decode as text makes [json.load] raise [UnicodeDecodeError],
    which [load_cache] raises. *)
Theorem load_cache_raises_on_unreadable_file :
  (forall (e : env) (d : disk) (name : string) (ttl : Q),
      exists_fails (flt e) = true ->
      is_cache_valid (Child name) ttl e d = (Raise (os_error "stat"), d))
  /\ (forall (e : env) (d : disk) (key : string) (ttl : Q),
        plain_key key -> exists_fails (flt e) = true ->
        load_cache key ttl e d = (Raise (os_error "stat"), d))
  /\ (forall (e : env) (d : disk) (key : string) (ttl : Q) (f : file),
        plain_key key -> half_hours ttl ->
        exists_fails (flt e) = false -> stat_fails (flt e) = false ->
        open_read_fails (flt e) = false ->
        files d !! (key +:+ ".json") = Some f ->
        data f = Undecodable ->
        (inject_Z (age_us e f) < ttl * inject_Z US_PER_HOUR)%Q ->
        load_cache key ttl e d = (Raise (Exc UnicodeDecodeError "invalid start byte"), d))
  /\ is_cache_valid (Child "0123456789abcdef.json") DEFAULT_TTL_HOURS
       samples.no_search_permission samples.garbled_cache
     = (Raise (os_error "stat"), samples.garbled_cache)
  /\ load_cache "0123456789abcdef" DEFAULT_TTL_HOURS samples.quiet samples.garbled_cache
     = (Raise (Exc UnicodeDecodeError "invalid start byte"), samples.garbled_cache).
Proof.
  split; [|split; [|split; [|split]]].
  - intros e d name ttl H. rewrite is_cache_valid_eq, H. reflexivity.
  - intros e d key ttl Hkey H. rewrite (load_cache_child key ttl e d Hkey), H. reflexivity.
  - intros e d key ttl f Hkey _ He Hs Ho Hf Hdata Hage.
    rewrite (load_cache_child key ttl e d Hkey), He, Hf, Hs, (fresh e f ttl Hage), Ho, Hdata.
    reflexivity.
  - reflexivity.
  - reflexivity.
Qed.



(** *** Saving *)

Lemma save_cache_eq (key : string) (j : json) (e : env) (d : disk) :
  save_cache key j e d =
  if mkdir_fails (flt e) then (Raise (os_error "mkdir"), d)
  else io_try (write_json (get_cache_path key) j) [OSError] (io_ret tt) e
         (Disk true (files d)).
Proof.
  unfold save_cache, mbind, io_mbind, io_bind, ensure_cache_dir, mkdir_cache_dir.
  destruct (mkdir_fails (flt e)); reflexivity.
Qed.

(** C3 (what the code does). When the cache directory cannot be created,
    [save_cache] raises the [OSError] of [mkdir] to its caller:
    [ensure_cache_dir()] runs before the [try]. *)
Theorem save_cache_raises_when_mkdir_fails :
  forall (key : string) (payload : json) (e : env) (d : disk),
    mkdir_fails (flt e) = true ->
    save_cache key payload e d = (Raise (os_error "mkdir"), d).
Proof.
  intros key payload e d H. rewrite save_cache_eq, H. reflexivity.
Qed.

Lemma save_cache_raises_when_mkdir_fails_witness :
  save_cache "0123456789abcdef" (JObj ∅) samples.read_only_home samples.no_cache_dir
  = (Raise (os_error "mkdir"), samples.no_cache_dir).
Proof.
  apply (save_cache_raises_when_mkdir_fails "0123456789abcdef" (JObj ∅)
           samples.read_only_home samples.no_cache_dir).
  reflexivity.
Defined.




(** *** The preference cache *)

Lemma load_model_cache_eq (e : env) (d : disk) :
  load_model_cache e d =
  if exists_fails (flt e) then (Raise (os_error "stat"), d)
  else
    match files d !! MODEL_CACHE_FILE with
    | None => (Ok (JObj ∅), d)
    | Some f =>
        if stat_fails (flt e) then (Ok (JObj ∅), d)
        else if Qlt_bool (total_seconds (dt_diff (now e) (st_mtime f)) / 3600) 168
        then if open_read_fails (flt e) then (Ok (JObj ∅), d)
             else match data f with
                  | JsonText j => (Ok j, d)
                  | Malformed => (Ok (JObj ∅), d)
                  | Undecodable => (Raise (Exc UnicodeDecodeError "invalid start byte"), d)
                  | Directory => (Ok (JObj ∅), d)
                  end
        else (Ok (JObj ∅), d)
    end.
Proof.
  unfold load_model_cache. unfold mbind at 1, io_mbind, io_bind.
  rewrite is_cache_valid_eq.
  destruct (exists_fails (flt e)); [reflexivity|].
  destruct (files d !! MODEL_CACHE_FILE) as [f|] eqn:Hf; [|reflexivity].
  destruct (stat_fails (flt e)); [reflexivity|].
  change (MODEL_CACHE_TTL_DAYS * 24)%Q with 168%Q.
  destruct (Qlt_bool _ 168); [|reflexivity].
  cbn [negb]. unfold io_try, read_json. rewrite Hf.
  destruct (open_read_fails (flt e)); [reflexivity|].
  destruct (data f); reflexivity.
Qed.






End cache_proofs.

(** ** dates.py *)

Module dates_proofs.
Import Py dates Spec.

(** *** parse_range *)

Lemma str_in_In (x : string) (l : list string) : str_in x l = true <-> In x l.
Proof.
  unfold str_in. rewrite existsb_exists. split.
  - intros (y & Hy & Heq). apply String.eqb_eq in Heq. subst. exact Hy.
  - intros H. exists x. split; [exact H | apply String.eqb_refl].
Qed.

Lemma span_spec (p : ascii -> bool) (s a b : string) :
  span p s = (a, b) -> s = a +:+ b /\ all_chars p a = true /\ stops p b.
Proof.
  revert a b. induction s as [|c s IH]; simpl; intros a b H.
  - injection H as <- <-. repeat split.
  - destruct (p c) eqn:Hc.
    + destruct (span p s) as [a' b'] eqn:Hs. injection H as <- <-.
      destruct (IH a' b' eq_refl) as (-> & Ha & Hb).
      simpl. rewrite Hc, Ha. repeat split. exact Hb.
    + injection H as <- <-. simpl. repeat split. exact Hc.
Qed.

Lemma span_app (p : ascii -> bool) (a b : string) :
  all_chars p a = true -> stops p b -> span p (a +:+ b) = (a, b).
Proof.
  induction a as [|c a IH]; simpl; intros Ha Hb.
  - destruct b as [|c b]; simpl in *; [reflexivity | rewrite Hb; reflexivity].
  - apply andb_true_iff in Ha as [Hc Ha]. rewrite Hc, (IH Ha Hb). reflexivity.
Qed.





Lemma trimmed_suffix (a b : string) :
  trimmed (a +:+ b) -> b <> EmptyString -> trimmed b.
Proof.
  unfold trimmed. induction a as [|c a IH]; simpl; intros H Hb; [exact H|].
  apply IH; [|exact Hb].
  destruct (rstrip (a +:+ b)) as [|c' r] eqn:Hr.
  - exfalso. destruct (isspace c); [discriminate|].
    injection H as H. destruct a; [change (EmptyString = b) in H; congruence | discriminate H].
  - injection H as H. exact H.
Qed.

Lemma trimmed_before_final_newline (s : string) :
  trimmed s -> before_final_newline s = s.
Proof.
  unfold trimmed. induction s as [|c s IH]; simpl; intros H; [reflexivity|].
  destruct s as [|c' s'].
  - simpl in H. destruct (Ascii.eqb_spec c "010"); [subst; discriminate | reflexivity].
  - f_equal. apply IH.
    destruct (rstrip (String c' s')) as [|c'' r] eqn:Hr.
    + destruct (isspace c); discriminate.
    + congruence.
Qed.

Lemma unit_shape (u : string) :
  In u RANGE_UNITS ->
  stops isdigit u /\ stops isspace u /\ u <> EmptyString /\ before_final_newline u = u.
Proof.
  unfold RANGE_UNITS. simpl.
  intros H. repeat (destruct H as [<- | H]; [repeat split; discriminate|]). contradiction.
Qed.

Lemma all_spaces_stop_digits (ws u : string) :
  all_chars isspace ws = true -> stops isdigit u -> u <> EmptyString ->
  stops isdigit (ws +:+ u).
Proof.
  destruct ws as [|c ws]; simpl; [auto|].
  intros H _ _. apply andb_true_iff in H as [Hc _].
  destruct c as [[] [] [] [] [] [] [] []]; try discriminate; reflexivity.
Qed.

Lemma match_range_complete (s : string) :
  range_syntax s -> exists ds u, match_range s = Some (ds, u) /\ In u RANGE_UNITS
                                 /\ all_chars isdigit ds = true.
Proof.
  intros (ds & ws & u & -> & Hne & Hds & Hws & Hu).
  destruct (unit_shape u Hu) as (Hd & Hsp & Hune & Hnl).
  exists ds, u. unfold match_range.
  rewrite (span_app isdigit ds (ws +:+ u) Hds (all_spaces_stop_digits ws u Hws Hd Hune)).
  destruct ds as [|c ds]; [congruence|].
  rewrite (span_app isspace ws u Hws Hsp), Hnl.
  rewrite (proj2 (str_in_In u RANGE_UNITS) Hu). auto.
Qed.

Lemma match_range_sound (s ds u : string) :
  trimmed s -> match_range s = Some (ds, u) ->
  range_syntax s /\ In u RANGE_UNITS /\ all_chars isdigit ds = true.
Proof.
  unfold match_range. intros Ht H.
  destruct (span isdigit s) as [ds' rest] eqn:Hd.
  destruct (span_spec _ _ _ _ Hd) as (-> & Hds & _).
  destruct ds' as [|c ds']; [discriminate|].
  destruct (span isspace rest) as [ws tail] eqn:Hs.
  destruct (span_spec _ _ _ _ Hs) as (-> & Hws & _).
  destruct (str_in (before_final_newline tail) RANGE_UNITS) eqn:Hin; [|discriminate].
  injection H as <- <-.
  apply str_in_In in Hin.
  assert (Htail : tail <> EmptyString).
  { intros ->. simpl in Hin. intuition discriminate. }
  assert (Hbf : before_final_newline tail = tail).
  { apply trimmed_before_final_newline.
    apply (trimmed_suffix ws); [|exact Htail].
    apply (trimmed_suffix (String c ds')); [exact Ht|].
    destruct ws; simpl; [exact Htail | discriminate]. }
  rewrite Hbf in *. split; [|auto].
  exists (String c ds'), ws, tail. repeat split; auto.
Qed.


Lemma match_range_unit (s ds u : string) :
  match_range s = Some (ds, u) -> str_in u RANGE_UNITS = true.
Proof.
  unfold match_range.
  destruct (span isdigit s) as [ds' rest]. destruct ds'; [discriminate|].
  destruct (span isspace rest) as [ws tail].
  destruct (str_in (before_final_newline tail) RANGE_UNITS) eqn:Hin; [|discriminate].
  intros [= <- <-]. exact Hin.
Qed.

Lemma unit_delta_eq (u : string) (amount : Z) :
  str_in u RANGE_UNITS = true ->
  (if str_in u ["h"; "hour"; "hours"] then timedelta_hours amount
   else if str_in u ["d"; "day"; "days"] then timedelta_days amount
   else if str_in u ["w"; "week"; "weeks"] then timedelta_weeks amount
   else if str_in u ["mo"; "month"; "months"] then timedelta_days (amount * 30)
   else Raise (Exc ValueError ("Unknown time unit: '" +:+ u +:+ "'")))
  = unit_delta u amount.
Proof.
  intros Hu. unfold unit_delta.
  destruct (str_in u ["h"; "hour"; "hours"]) eqn:H1; [reflexivity|].
  destruct (str_in u ["d"; "day"; "days"]) eqn:H2; [reflexivity|].
  destruct (str_in u ["w"; "week"; "weeks"]) eqn:H3; [reflexivity|].
  destruct (str_in u ["mo"; "month"; "months"]) eqn:H4; [reflexivity|].
  exfalso. apply str_in_In in Hu. simpl in Hu.
  apply not_true_iff_false in H1, H2, H3, H4.
  rewrite str_in_In in H1, H2, H3, H4. simpl in *. tauto.
Qed.

Lemma parse_range_eq (text : string) :
  parse_range text =
  match match_range (lower (strip text)) with
  | None => Raise (Exc ValueError (invalid_range_message (lower (strip text))))
  | Some (ds, u) => amount ← int_of_str ds; unit_delta u amount
  end.
Proof.
  unfold parse_range.
  destruct (match_range (lower (strip text))) as [[ds u]|] eqn:Hm; [|reflexivity].
  pose proof (match_range_unit _ _ _ Hm) as Hu.
  destruct (int_of_str ds) as [amount|e]; [|reflexivity].
  cbn. apply unit_delta_eq, Hu.
Qed.

Lemma int_of_str_short (ds : string) :
  (String.length ds <= 4300)%nat -> int_of_str ds = Ok (int_of_digits ds).
Proof.
  intros H. unfold int_of_str, INT_MAX_STR_DIGITS.
  destruct (Nat.ltb_spec 4300 (String.length ds)); [lia | reflexivity].
Qed.



Lemma match_range_amount (s ds : string) :
  range_amount s ds -> exists u, match_range s = Some (ds, u) /\ In u RANGE_UNITS.
Proof.
  intros (ws & u & -> & Hne & Hds & Hws & Hu).
  destruct (unit_shape u Hu) as (Hd & Hsp & Hune & Hnl).
  exists u. unfold match_range.
  rewrite (span_app isdigit ds (ws +:+ u) Hds (all_spaces_stop_digits ws u Hws Hd Hune)).
  destruct ds as [|c ds]; [congruence|].
  rewrite (span_app isspace ws u Hws Hsp), Hnl.
  rewrite (proj2 (str_in_In u RANGE_UNITS) Hu). auto.
Qed.





Lemma lower_app (a b : string) : lower (a +:+ b) = lower a +:+ lower b.
Proof. induction a as [|c a IH]; simpl; [reflexivity | rewrite IH; reflexivity]. Qed.

Lemma lower_fixed (p : ascii -> bool) (s : string) :
  (forall c, p c = true -> lower_char c = c) -> all_chars p s = true -> lower s = s.
Proof.
  intros Hp. induction s as [|c s IH]; simpl; [reflexivity|].
  intros H. apply andb_true_iff in H as [Hc Hs]. rewrite (Hp c Hc), (IH Hs). reflexivity.
Qed.

Lemma lower_char_digit (c : ascii) : isdigit c = true -> lower_char c = c.
Proof. destruct c as [[] [] [] [] [] [] [] []]; (discriminate || reflexivity). Qed.

Lemma lower_char_space (c : ascii) : isspace c = true -> lower_char c = c.
Proof. destruct c as [[] [] [] [] [] [] [] []]; (discriminate || reflexivity). Qed.

Lemma isdigit_not_space (c : ascii) : isdigit c = true -> isspace c = false.
Proof. destruct c as [[] [] [] [] [] [] [] []]; (discriminate || reflexivity). Qed.

Lemma rstrip_app (a b : string) :
  trimmed b -> b <> EmptyString -> rstrip (a +:+ b) = a +:+ b.
Proof.
  unfold trimmed. intros Hb Hne. induction a as [|c a IH]; [exact Hb|].
  change (String c a +:+ b) with (String c (a +:+ b)). simpl.
  rewrite IH. destruct (a +:+ b) eqn:Hab; [|reflexivity].
  destruct a; [change (b = EmptyString) in Hab; congruence | discriminate Hab].
Qed.

Lemma unit_fixed (u : string) :
  In u RANGE_UNITS -> lower u = u /\ trimmed u.
Proof.
  unfold RANGE_UNITS, trimmed. simpl.
  intros H. repeat (destruct H as [<- | H]; [split; reflexivity|]). contradiction.
Qed.

Lemma normalise_syntax (ds ws u : string) :
  ds <> EmptyString -> all_chars isdigit ds = true -> all_chars isspace ws = true ->
  In u RANGE_UNITS ->
  lower (strip (ds +:+ ws +:+ u)) = ds +:+ ws +:+ u.
Proof.
  intros Hne Hds Hws Hu.
  destruct (unit_fixed u Hu) as (Hlu & Htu).
  destruct (unit_shape u Hu) as (_ & _ & Hune & _).
  unfold strip.
  assert (Hl : lstrip (ds +:+ ws +:+ u) = ds +:+ ws +:+ u).
  { destruct ds as [|c ds]; [congruence|]. simpl in *.
    apply andb_true_iff in Hds as [Hc _]. rewrite (isdigit_not_space c Hc). reflexivity. }
  rewrite Hl, (rstrip_app ds (ws +:+ u)).
  - rewrite !lower_app, Hlu,
      (lower_fixed isdigit ds lower_char_digit Hds),
      (lower_fixed isspace ws lower_char_space Hws).
    reflexivity.
  - unfold trimmed. apply rstrip_app; assumption.
  - destruct ws; [exact Hune | discriminate].
Qed.

Lemma parse_range_of_syntax (ds ws u : string) :
  ds <> EmptyString -> all_chars isdigit ds = true -> all_chars isspace ws = true ->
  In u RANGE_UNITS ->
  parse_range (ds +:+ ws +:+ u) = (amount ← int_of_str ds; unit_delta u amount).
Proof.
  intros Hne Hds Hws Hu.
  rewrite parse_range_eq, (normalise_syntax ds ws u Hne Hds Hws Hu).
  assert (Ha : range_amount (ds +:+ ws +:+ u) ds) by (exists ws, u; auto).
  destruct (match_range_amount _ _ Ha) as (u' & Hm & _).
  assert (Hu' : u' = u).
  { destruct (unit_shape u Hu) as (Hd & Hsp & Hune & Hnl).
    revert Hm. unfold match_range.
    rewrite (span_app isdigit ds (ws +:+ u) Hds (all_spaces_stop_digits ws u Hws Hd Hune)).
    destruct ds as [|c ds]; [congruence|].
    rewrite (span_app isspace ws u Hws Hsp), Hnl.
    rewrite (proj2 (str_in_In u RANGE_UNITS) Hu). congruence. }
  rewrite Hm, Hu'. reflexivity.
Qed.




(** *** get_date_confidence *)

Lemma strptime_date_raises (s : string) (e : exc) :
  strptime_date s = Raise e -> exc_type e = ValueError.
Proof.
  unfold strptime_date, value_error.
  repeat match goal with
         | |- context [match ?x with _ => _ end] => destruct x
         end;
    intros [= <-]; reflexivity.
Qed.

Lemma get_date_confidence_total (date_str : option string) (from_date to_date : string) :
  get_date_confidence date_str from_date to_date = Ok "high"%string
  \/ get_date_confidence date_str from_date to_date = Ok "low"%string.
Proof.
  unfold get_date_confidence.
  destruct date_str as [[|c s]|]; auto.
  unfold try_except, mbind, result_bind, catches.
  destruct (strptime_date (String c s)) as [dt|e1] eqn:H1;
    [|rewrite (strptime_date_raises _ _ H1); auto].
  destruct (strptime_date from_date) as [start|e2] eqn:H2;
    [|rewrite (strptime_date_raises _ _ H2); auto].
  destruct (strptime_date to_date) as [end_|e3] eqn:H3;
    [|rewrite (strptime_date_raises _ _ H3); auto].
  destruct (date_leb start dt && date_leb dt end_); auto.
  destruct (date_ltb dt start); auto.
Qed.

(** C1 (what the code does). The boundaries are parsed with the
    date-only format, nothing is split at "T": a date inside the window
    is classified "low" as soon as a boundary (or the date itself)
    carries a time of day. *)
Theorem get_date_confidence_datetime_boundary_low :
  get_date_confidence (Some "2026-01-15"%string)
    "2026-01-01T00:00:00+00:00" "2026-01-31T23:59:59+00:00" = Ok "low"%string
  /\ get_date_confidence (Some "2026-01-15"%string)
       "2026-01-01T12:00:00Z" "2026-01-31T12:00:00Z" = Ok "low"%string
  /\ get_date_confidence (Some "2026-01-15T10:30:00"%string)
       "2026-01-01" "2026-01-31" = Ok "low"%string
  /\ get_date_confidence (Some "2026-01-15"%string)
       "2026-01-01" "2026-01-31" = Ok "high"%string.
Proof. repeat split; reflexivity. Qed.

(** With the date and both boundaries in the date-only format, the
    classification is the one of the calendar dates: "high" inside the
    closed window, "low" before and after it; an absent date is "low",
    and so is any date when a boundary does not parse. *)
Theorem get_date_confidence_date_only :
  (forall from_date to_date, get_date_confidence None from_date to_date = Ok "low"%string)
  /\ (forall s from_date to_date dt start end_,
        s <> EmptyString ->
        strptime_date s = Ok dt -> strptime_date from_date = Ok start ->
        strptime_date to_date = Ok end_ ->
        get_date_confidence (Some s) from_date to_date =
        Ok (if date_leb start dt && date_leb dt end_ then "high" else "low")%string)
  /\ (forall s from_date to_date e,
        strptime_date from_date = Raise e \/ strptime_date to_date = Raise e ->
        get_date_confidence (Some s) from_date to_date = Ok "low"%string).
Proof.
  split; [reflexivity|]. split.
  - intros s from_date to_date dt start end_ Hne Hs Hf Ht.
    unfold get_date_confidence. destruct s as [|c s]; [congruence|].
    rewrite Hs, Hf, Ht. simpl.
    destruct (date_leb start dt && date_leb dt end_); [reflexivity|].
    destruct (date_ltb dt start); reflexivity.
  - intros s from_date to_date e Hbad.
    unfold get_date_confidence. destruct s as [|c s]; [reflexivity|].
    unfold try_except, mbind, result_bind, catches.
    destruct (strptime_date (String c s)) as [dt|e1] eqn:H1;
      [|rewrite (strptime_date_raises _ _ H1); reflexivity].
    destruct (strptime_date from_date) as [start|e2] eqn:H2;
      [|rewrite (strptime_date_raises _ _ H2); reflexivity].
    destruct (strptime_date to_date) as [end_|e3] eqn:H3;
      [|rewrite (strptime_date_raises _ _ H3); reflexivity].
    destruct Hbad; discriminate.
Qed.

(** *** recency_score *)






(** C7 (what the code does). [parse_date] lets through every error of
    [datetime.fromtimestamp] that is neither a [ValueError] nor a
    [TypeError]: when [float] accepts the text and the timestamp cannot
    be represented ([OverflowError], [OSError]), [recency_score] raises
    that error instead of returning 0. *)
Theorem recency_score_raises_on_timestamp_error :
  forall (lib : PyLib) (s : string) (max_duration : int_or_timedelta) (now : datetime)
         (ts : pyfloat lib) (e : exc),
    s <> EmptyString ->
    float_of_str lib s = Ok ts ->
    fromtimestamp lib ts = Raise e ->
    exc_type e = OverflowError \/ exc_type e = OSError ->
    recency_score lib (Some s) max_duration now = Raise e.
Proof.
  intros lib s max_duration now ts e Hne Hf Ht Hty.
  unfold recency_score. destruct s as [|c s]; [congruence|].
  unfold parse_date. rewrite Hf. simpl mbind. unfold mbind at 2, result_bind.
  rewrite Ht. unfold catches.
  destruct Hty as [-> | ->]; reflexivity.
Qed.

Lemma recency_score_raises_on_timestamp_error_witness :
  recency_score samples.sample_lib (Some "inf"%string) (AsInt 30) samples.jan15
  = Raise (Exc OverflowError "timestamp out of range for platform time_t").
Proof.
  apply (recency_score_raises_on_timestamp_error samples.sample_lib "inf" (AsInt 30)
           samples.jan15 samples.Infinity).
  - discriminate.
  - reflexivity.
  - reflexivity.
  - left. reflexivity.
Defined.


(** *** The integer-days overload *)

Lemma timedelta_days_in_range (n : Z) :
  - MAX_DELTA_DAYS <= n <= MAX_DELTA_DAYS ->
  timedelta_days n = Ok (Timedelta (n * US_PER_DAY)).
Proof.
  intros H. unfold timedelta_days, new_timedelta.
  rewrite Z.div_mul by discriminate.
  destruct (Z.leb_spec (- MAX_DELTA_DAYS) n); [|lia].
  destruct (Z.leb_spec n MAX_DELTA_DAYS); [|lia].
  reflexivity.
Qed.

(** C10 (as the code has it). For every [n] from 0 to 999999999, the
    largest number of days a [timedelta] holds, [timedelta(days=n)]
    exists and each of [calculate_ttl], [get_date_range] and
    [recency_score] gives for [n] what it gives for that duration, the
    clock and the date text being the same. *)
Theorem legacy_days_equivalent :
  forall (lib : PyLib) (date_str : option string) (now : datetime) (n : Z),
    0 <= n <= MAX_DELTA_DAYS ->
    exists d,
      timedelta_days n = Ok d
      /\ cache.calculate_ttl (AsInt n) = cache.calculate_ttl (AsDelta d)
      /\ get_date_range (AsInt n) now = get_date_range (AsDelta d) now
      /\ recency_score lib date_str (AsInt n) now = recency_score lib date_str (AsDelta d) now.
Proof.
  intros lib date_str now n Hn.
  assert (Hd : timedelta_days n = Ok (Timedelta (n * US_PER_DAY)))
    by (apply timedelta_days_in_range; lia).
  exists (Timedelta (n * US_PER_DAY)). split; [exact Hd|].
  unfold cache.calculate_ttl, get_date_range, recency_score, as_timedelta.
  rewrite Hd. repeat split; reflexivity.
Qed.

Lemma legacy_days_equivalent_witness :
  exists d,
    timedelta_days 30 = Ok d
    /\ cache.calculate_ttl (AsInt 30) = cache.calculate_ttl (AsDelta d)
    /\ get_date_range (AsInt 30) samples.jan15 = get_date_range (AsDelta d) samples.jan15
    /\ recency_score samples.sample_lib (Some "2026-01-01"%string) (AsInt 30) samples.jan15
       = recency_score samples.sample_lib (Some "2026-01-01"%string) (AsDelta d) samples.jan15.
Proof.
  apply (legacy_days_equivalent samples.sample_lib (Some "2026-01-01"%string)
           samples.jan15 30).
  unfold MAX_DELTA_DAYS. lia.
Defined.

(** C10 (the claim as stated fails). For 1000000000 days and an absent
    date, the integer form returns 0, while the duration form cannot
    even build its argument: [timedelta(days=1000000000)] raises
    [OverflowError]. *)
Lemma legacy_days_differ_beyond_timedelta :
  recency_score samples.sample_lib None (AsInt 1000000000) samples.jan15 = Ok 0
  /\ (d ← timedelta_days 1000000000;
      recency_score samples.sample_lib None (AsDelta d) samples.jan15)
     = Raise (Exc OverflowError "days; must have magnitude <= 999999999").
Proof. split; reflexivity. Qed.

(** Beyond that range the two forms of [calculate_ttl] and of
    [get_date_range] still agree: both raise the [OverflowError] of
    [timedelta]. *)
Lemma legacy_days_overflow_alike (n : Z) (now : datetime) :
  cache.calculate_ttl (AsInt n) = (d ← timedelta_days n; cache.calculate_ttl (AsDelta d))
  /\ get_date_range (AsInt n) now = (d ← timedelta_days n; get_date_range (AsDelta d) now).
Proof.
  unfold cache.calculate_ttl, get_date_range, as_timedelta.
  destruct (timedelta_days n); split; reflexivity.
Qed.

End dates_proofs.

(** ** normalize.py *)

Module normalize_proofs.
Import Py normalize Spec.

(** *** The hard date filter *)

Section filter_facts.
Context {T : Type} (date : T -> option string).

Lemma filter_loop_eq (from_date to_date : string) (require_date : bool)
    (items result : list T) :
  filter_loop date (_normalize_date_for_comparison from_date)
    (_normalize_date_for_comparison to_date) require_date items result
  = result ++ List.filter (kept date from_date to_date require_date) items.
Proof.
  revert result. induction items as [|item items IH]; intros result; simpl.
  - rewrite app_nil_r. reflexivity.
  - unfold kept at 1. destruct (date item) as [d|].
    + destruct (String.ltb _ _); simpl; [apply IH|].
      destruct (String.ltb _ _); simpl; [apply IH|].
      rewrite IH, <- app_assoc. reflexivity.
    + destruct require_date; simpl; [apply IH|].
      rewrite IH, <- app_assoc. reflexivity.
Qed.

Lemma filter_by_date_range_eq (items : list T) (from_date to_date : string)
    (require_date : bool) :
  filter_by_date_range date items from_date to_date require_date
  = List.filter (kept date from_date to_date require_date) items.
Proof. unfold filter_by_date_range. apply filter_loop_eq. Qed.

Lemma filter_twice (p : T -> bool) (l : list T) :
  List.filter p (List.filter p l) = List.filter p l.
Proof.
  induction l as [|x l IH]; simpl; [reflexivity|].
  destruct (p x) eqn:Hx; simpl; [rewrite Hx, IH; reflexivity | exact IH].
Qed.

(** C8. Filtering the output of [filter_by_date_range] again, with the
    same boundaries and the same [require_date], returns it unchanged. *)
Theorem filter_by_date_range_idempotent :
  forall (items : list T) (from_date to_date : string) (require_date : bool),
    filter_by_date_range date
      (filter_by_date_range date items from_date to_date require_date)
      from_date to_date require_date
    = filter_by_date_range date items from_date to_date require_date.
Proof.
  intros. rewrite !filter_by_date_range_eq. apply filter_twice.
Qed.

(** The filter keeps, in their order, exactly the items the
    specification says to keep. *)
Theorem filter_by_date_range_keeps :
  forall (items : list T) (from_date to_date : string) (require_date : bool),
    filter_by_date_range date items from_date to_date require_date
    = List.filter (kept date from_date to_date require_date) items.
Proof. exact filter_by_date_range_eq. Qed.

End filter_facts.

(** *** URL validation *)

Lemma split_colon_spec (s a b : string) :
  split_colon s = Some (a, b) -> s = a +:+ String ":" b /\ contains ":" a = false.
Proof.
  revert a. induction s as [|c s IH]; simpl; intros a H; [discriminate|].
  destruct (Ascii.eqb_spec c ":") as [->|Hc].
  - injection H as <- <-. split; reflexivity.
  - destruct (split_colon s) as [[a' b']|]; [|discriminate].
    injection H as <- <-. destruct (IH a' eq_refl) as (-> & Ha).
    split; [reflexivity|]. simpl. rewrite Ha.
    destruct (Ascii.eqb_spec c ":"); [contradiction | reflexivity].
Qed.

Section url_facts.
Context (bracketed_netloc_ok : string -> bool).

Lemma is_valid_url_iff (url : string) :
  is_valid_url bracketed_netloc_ok url = true
  <-> exists parsed,
        urlparse bracketed_netloc_ok url = Ok parsed
        /\ (scheme parsed = "http"%string \/ scheme parsed = "https"%string)
        /\ netloc parsed <> EmptyString.
Proof.
  unfold is_valid_url. split.
  - destruct (nonempty url); cbn [negb]; [|discriminate].
    destruct (urlparse bracketed_netloc_ok url) as [parsed|e]; [|discriminate].
    intros H. apply andb_true_iff in H as [Hs Hn]. exists parsed.
    split; [reflexivity|]. split.
    + apply dates_proofs.str_in_In in Hs. simpl in Hs.
      destruct Hs as [<- | [<- | []]]; auto.
    + destruct (netloc parsed); [discriminate | discriminate].
  - intros (parsed & Hp & Hs & Hn).
    destruct url as [|c url]; cbn [nonempty negb].
    + unfold urlparse in Hp. simpl in Hp. injection Hp as <-. simpl in Hn. congruence.
    + rewrite Hp. apply andb_true_iff. split.
      * apply dates_proofs.str_in_In. simpl. destruct Hs as [-> | ->]; auto.
      * destruct (netloc parsed); [congruence | reflexivity].
Qed.

Lemma urlparse_ok (url : string) (parsed : ParseResult) :
  urlparse bracketed_netloc_ok url = Ok parsed ->
  scheme parsed = fst (split_scheme (remove_unsafe (lstrip_c0 url)))
  /\ netloc parsed =
     match after_slashes (snd (split_scheme (remove_unsafe (lstrip_c0 url)))) with
     | Some after => fst (splitnetloc after)
     | None => EmptyString
     end.
Proof.
  unfold urlparse.
  destruct (split_scheme (remove_unsafe (lstrip_c0 url))) as [sch r]. simpl.
  destruct (after_slashes r) as [after|]; [|intros [= <-]; split; reflexivity].
  destruct (splitnetloc after) as [nl r'].
  destruct (xorb _ _); [discriminate|].
  destruct (_ && _); [discriminate|].
  intros [= <-]. split; reflexivity.
Qed.

Lemma after_slashes_spec (s after : string) :
  after_slashes s = Some after -> s = "//" +:+ after.
Proof.
  destruct s as [|a [|b s]]; simpl; try discriminate.
  destruct (Ascii.eqb_spec a "/"), (Ascii.eqb_spec b "/"); simpl; try discriminate.
  intros [= <-]. subst. reflexivity.
Qed.

(** A valid URL reads, once the leading control characters and blanks
    and every tab, carriage return and newline are dropped, as a scheme
    that is "http" or "https" in any case, then "://", then at least one
    character of network location. *)
Lemma is_valid_url_shape (url : string) :
  is_valid_url bracketed_netloc_ok url = true ->
  exists head c tail,
    remove_unsafe (lstrip_c0 url) = head +:+ "://" +:+ String c tail
    /\ (lower head = "http"%string \/ lower head = "https"%string)
    /\ is_delim c = false.
Proof.
  intros H. apply is_valid_url_iff in H as (parsed & Hp & Hs & Hn).
  apply urlparse_ok in Hp as (Hsch & Hnet).
  set (u := remove_unsafe (lstrip_c0 url)) in *.
  unfold split_scheme in Hsch, Hnet.
  destruct (split_colon u) as [[head tail]|] eqn:Hc;
    [|simpl in Hsch; rewrite Hsch in Hs; destruct Hs; discriminate].
  destruct (split_colon_spec _ _ _ Hc) as (Hu & _).
  destruct head as [|h head];
    [simpl in Hsch; rewrite Hsch in Hs; destruct Hs; discriminate|].
  destruct (isalpha h && all_chars is_scheme_char (String h head));
    [|simpl in Hsch; rewrite Hsch in Hs; destruct Hs; discriminate].
  cbn [fst snd] in Hsch, Hnet. rewrite Hsch in Hs.
  destruct (after_slashes tail) as [after|] eqn:Ha; [|congruence].
  apply after_slashes_spec in Ha. subst tail.
  destruct (splitnetloc after) as [nl r] eqn:Hnl. cbn [fst] in Hnet.
  unfold splitnetloc in Hnl.
  destruct (dates_proofs.span_spec _ _ _ _ Hnl) as (-> & Hall & _).
  rewrite Hnet in Hn. destruct nl as [|c nl]; [congruence|].
  exists (String h head), c, (nl +:+ r).
  split; [exact Hu|]. split; [exact Hs|].
  simpl in Hall. apply andb_true_iff in Hall as [Hcd _].
  apply negb_true_iff in Hcd. exact Hcd.
Qed.

Lemma is_valid_reddit_url_netloc (url : string) :
  is_valid_reddit_url bracketed_netloc_ok url = true ->
  is_valid_url bracketed_netloc_ok url = true
  /\ exists parsed,
       urlparse bracketed_netloc_ok url = Ok parsed
       /\ In (netloc parsed) ["reddit.com"; "www.reddit.com"; "old.reddit.com"]%string.
Proof.
  unfold is_valid_reddit_url.
  destruct (is_valid_url bracketed_netloc_ok url); cbn [negb]; [|discriminate].
  destruct (urlparse bracketed_netloc_ok url) as [parsed|e]; [|discriminate].
  intros H. apply dates_proofs.str_in_In in H. eauto.
Qed.

(** C9 (what the code does). [is_valid_url] tests the scheme and the
    network location of [urlparse], the text between "//" and the next
    "/", "?" or "#", and never looks at the host inside it.  A network
    location that holds only user information or only a port is not
    empty and has no host: "https://@/", "http://:80" and
    "http://user:pw@/x" are accepted, and [hostname] is [None] for each
    of them.  The rest is as claimed: "javascript:alert(1)" and
    "file:///etc/passwd" are refused, "https://example.com/x" is
    accepted, and "https://reddit.com@evil.com/" is no reddit URL. *)
Theorem is_valid_url_accepts_url_without_host :
  (forall url,
      is_valid_url bracketed_netloc_ok url = true
      <-> exists parsed,
            urlparse bracketed_netloc_ok url = Ok parsed
            /\ (scheme parsed = "http"%string \/ scheme parsed = "https"%string)
            /\ netloc parsed <> EmptyString)
  /\ (is_valid_url bracketed_netloc_ok "https://@/" = true
      /\ exists parsed, urlparse bracketed_netloc_ok "https://@/" = Ok parsed
                        /\ netloc parsed = "@"%string /\ hostname parsed = None)
  /\ (is_valid_url bracketed_netloc_ok "http://:80" = true
      /\ exists parsed, urlparse bracketed_netloc_ok "http://:80" = Ok parsed
                        /\ netloc parsed = ":80"%string /\ hostname parsed = None)
  /\ (is_valid_url bracketed_netloc_ok "http://user:pw@/x" = true
      /\ exists parsed, urlparse bracketed_netloc_ok "http://user:pw@/x" = Ok parsed
                        /\ netloc parsed = "user:pw@"%string /\ hostname parsed = None)
  /\ (is_valid_url bracketed_netloc_ok "https://example.com/x" = true
      /\ exists parsed, urlparse bracketed_netloc_ok "https://example.com/x" = Ok parsed
                        /\ hostname parsed = Some "example.com"%string)
  /\ is_valid_url bracketed_netloc_ok "javascript:alert(1)" = false
  /\ is_valid_url bracketed_netloc_ok "file:///etc/passwd" = false
  /\ is_valid_reddit_url bracketed_netloc_ok "https://reddit.com@evil.com/" = false
  /\ (exists parsed,
        urlparse bracketed_netloc_ok "https://reddit.com@evil.com/" = Ok parsed
        /\ hostname parsed = Some "evil.com"%string).
Proof.
  split; [exact is_valid_url_iff|].
  repeat split; try reflexivity; eexists; repeat split; reflexivity.
Qed.

End url_facts.

End normalize_proofs.

(** ** The rest of cache.py *)

Module cache_ext_proofs.
Import Py cache cache_ext Spec.

(** *** Cache keys *)

Lemma append_assoc (a b c : string) : (a +:+ b) +:+ c = a +:+ (b +:+ c).
Proof.
  induction a as [|x a IH]; [reflexivity|].
  change (String x ((a +:+ b) +:+ c) = String x (a +:+ (b +:+ c))). rewrite IH. reflexivity.
Qed.

Lemma split_at_bar (a b a' b' : string) :
  contains "|" a = false -> contains "|" a' = false ->
  a +:+ String "|" b = a' +:+ String "|" b' -> a = a' /\ b = b'.
Proof.
  revert a'. induction a as [|x a IH]; intros [|x' a'] Ha Ha' H; simpl in *.
  - injection H as <-. auto.
  - injection H as <- _. discriminate Ha'.
  - injection H as -> _. discriminate Ha.
  - injection H as <- H.
    apply orb_false_iff in Ha as [_ Ha]. apply orb_false_iff in Ha' as [_ Ha'].
    destruct (IH a' Ha Ha' H) as [-> ->]. auto.
Qed.

(** The text that is hashed tells two queries apart whenever the topic
    and the two dates hold no "|"; with a "|" inside a field it does
    not, and the key is the same for both, whatever the hash. *)
Theorem cache_key_separator :
  (forall topic from_date to_date sources topic' from_date' to_date' sources',
      contains "|" topic = false -> contains "|" from_date = false ->
      contains "|" to_date = false ->
      contains "|" topic' = false -> contains "|" from_date' = false ->
      contains "|" to_date' = false ->
      key_data topic from_date to_date sources
      = key_data topic' from_date' to_date' sources' ->
      topic = topic' /\ from_date = from_date' /\ to_date = to_date'
      /\ sources = sources')
  /\ (forall sha256_hexdigest a b from_date to_date sources,
        get_cache_key sha256_hexdigest (a +:+ "|" +:+ b) from_date to_date sources
        = get_cache_key sha256_hexdigest a (b +:+ "|" +:+ from_date) to_date sources).
Proof.
  split.
  - unfold key_data. intros t f o s t' f' o' s' Ht Hf Ho Ht' Hf' Ho' H.
    apply split_at_bar in H as [-> H]; [|assumption..].
    apply split_at_bar in H as [-> H]; [|assumption..].
    apply split_at_bar in H as [-> ->]; [|assumption..].
    auto.
  - intros sha a b f o s. unfold get_cache_key, key_data.
    rewrite !append_assoc. reflexivity.
Qed.

(** *** Saving and loading *)






(** *** Loading with the age *)

(** Where [is_cache_valid] says yes, [get_cache_age_hours] finds an
    age, also when the clock has moved on. *)
Lemma age_of_valid (p : path) (ttl : Q) (e : env) (d : disk) :
  is_cache_valid p ttl e d = (Ok true, d) ->
  exists age, later (get_cache_age_hours p) e d = (Ok (Some age), d).
Proof.
  unfold is_cache_valid, get_cache_age_hours, later, mbind, io_mbind, io_bind, io_try,
    path_exists, path_mtime, datetime_now, io_ret.
  destruct p as [name| |text]; cbn [flt out now].
  - destruct (exists_fails (flt e)); [discriminate|].
    destruct (files d !! name) as [f|] eqn:Hf; cbn; [|discriminate].
    rewrite Hf. destruct (stat_fails (flt e)); cbn; [discriminate|]. eauto.
  - discriminate.
  - destruct (out_exists (out e) text) as [[|]|x]; cbn; try discriminate.
    destruct (out_mtime (out e) text) as [m|x]; cbn; [eauto|].
    destruct (subclass (exc_type x) OSError || false); discriminate.
Qed.

Lemma is_cache_valid_disk (p : path) (ttl : Q) (e : env) (d : disk) :
  snd (is_cache_valid p ttl e d) = d.
Proof.
  unfold is_cache_valid, mbind, io_mbind, io_bind, io_try, path_exists, path_mtime,
    datetime_now, io_ret.
  destruct p as [name| |text].
  - destruct (exists_fails (flt e)); [reflexivity|].
    destruct (files d !! name) as [f|] eqn:Hf; cbn; [|reflexivity].
    rewrite Hf. destruct (stat_fails (flt e)); reflexivity.
  - reflexivity.
  - destruct (out_exists (out e) text) as [[|]|x]; cbn; try reflexivity.
    destruct (out_mtime (out e) text) as [m|x]; cbn; [reflexivity|].
    destruct (subclass (exc_type x) OSError || false); reflexivity.
Qed.

Lemma read_json_disk (p : path) (e : env) (d : disk) : snd (read_json p e d) = d.
Proof.
  unfold read_json. destruct p as [name| |text]; [|reflexivity..].
  destruct (open_read_fails (flt e)); [reflexivity|].
  destruct (files d !! name) as [f|]; [|reflexivity].
  destruct (data f); reflexivity.
Qed.

Lemma load_cache_with_age_eq (key : string) (ttl : Q) (e : env) (d : disk) :
  load_cache_with_age key ttl e d =
  match is_cache_valid (get_cache_path key) ttl e d with
  | (Ok true, _) =>
      match later (get_cache_age_hours (get_cache_path key)) e d with
      | (Ok age, _) =>
          match read_json (get_cache_path key) e d with
          | (Ok j, _) => (Ok (j, age), d)
          | (Raise x, _) =>
              if catches [JSONDecodeError; OSError] x then (Ok (JNull, None), d)
              else (Raise x, d)
          end
      | (Raise x, _) => (Raise x, d)
      end
  | (Ok false, _) => (Ok (JNull, None), d)
  | (Raise x, _) => (Raise x, d)
  end.
Proof.
  unfold load_cache_with_age. cbv zeta. unfold mbind at 1, io_mbind, io_bind.
  pose proof (is_cache_valid_disk (get_cache_path key) ttl e d) as Hd.
  destruct (is_cache_valid (get_cache_path key) ttl e d) as [[[|]|x] d0] eqn:Hv;
    cbn [snd] in Hd; subst d0; [|reflexivity..].
  cbn [negb]. unfold mbind at 1, io_mbind, io_bind.
  destruct (age_of_valid _ _ _ _ Hv) as [age ->].
  unfold io_try, mbind, io_mbind, io_bind, io_ret.
  pose proof (read_json_disk (get_cache_path key) e d) as Hr.
  destruct (read_json (get_cache_path key) e d) as [[j|x] d0]; cbn [snd] in Hr; subst d0;
    [reflexivity|].
  destruct (catches _ x); reflexivity.
Qed.

Lemma load_cache_read (key : string) (ttl : Q) (e : env) (d : disk) :
  load_cache key ttl e d =
  match is_cache_valid (get_cache_path key) ttl e d with
  | (Ok true, _) =>
      match read_json (get_cache_path key) e d with
      | (Ok j, _) => (Ok j, d)
      | (Raise x, _) =>
          if catches [JSONDecodeError; OSError] x then (Ok JNull, d) else (Raise x, d)
      end
  | (Ok false, _) => (Ok JNull, d)
  | (Raise x, _) => (Raise x, d)
  end.
Proof.
  rewrite cache_proofs.load_cache_eq.
  pose proof (is_cache_valid_disk (get_cache_path key) ttl e d) as Hd.
  destruct (is_cache_valid (get_cache_path key) ttl e d) as [[[|]|x] d0];
    cbn [snd] in Hd; subst d0; [|reflexivity..].
  unfold io_try, io_ret.
  pose proof (read_json_disk (get_cache_path key) e d) as Hr.
  destruct (read_json (get_cache_path key) e d) as [[j|x] d0]; cbn [snd] in Hr; subst d0;
    [reflexivity|].
  destruct (catches _ x); reflexivity.
Qed.

(** [load_cache_with_age] returns the data [load_cache] returns and
    raises what [load_cache] raises.  An age comes with the data only on
    a hit; without an age the data is [None]; and for a key that names
    an entry of the cache directory a hit is a file that is there and
    holds the JSON value returned. *)
Theorem load_cache_with_age_agrees :
  forall (key : string) (ttl : Q) (e : env) (d : disk),
    (forall j age,
        load_cache_with_age key ttl e d = (Ok (j, age), d) ->
        load_cache key ttl e d = (Ok j, d))
    /\ (forall x,
        fst (load_cache_with_age key ttl e d) = Raise x <->
        fst (load_cache key ttl e d) = Raise x)
    /\ (forall j,
        load_cache_with_age key ttl e d = (Ok (j, None), d) -> j = JNull)
    /\ (forall j age,
        plain_key key ->
        load_cache_with_age key ttl e d = (Ok (j, Some age), d) ->
        exists f, files d !! (key +:+ ".json") = Some f /\ data f = JsonText j).
Proof.
  intros key ttl e d.
  rewrite load_cache_with_age_eq, load_cache_read.
  destruct (is_cache_valid (get_cache_path key) ttl e d) as [[[|]|x] d0] eqn:Hv.
  - pose proof (is_cache_valid_disk (get_cache_path key) ttl e d) as Hd.
    rewrite Hv in Hd. cbn [snd] in Hd. subst d0.
    destruct (age_of_valid _ _ _ _ Hv) as [age0 ->].
    destruct (read_json (get_cache_path key) e d) as [[j0|x] d0] eqn:Hr.
    + split; [intros j age [= <- _]; reflexivity|].
      split; [intros x; split; discriminate|].
      split; [intros j H; discriminate H|].
      intros j age Hkey [= <- _].
      rewrite (cache_proofs.get_cache_path_plain key Hkey) in Hr.
      unfold read_json in Hr.
      destruct (open_read_fails (flt e)); [discriminate|].
      destruct (files d !! (key +:+ ".json")) as [f|]; [|discriminate].
      exists f. split; [reflexivity|].
      destruct (data f); try discriminate. injection Hr as ->. reflexivity.
    + destruct (catches [JSONDecodeError; OSError] x).
      * split; [intros j age [= <- _]; reflexivity|].
        split; [intros y; split; discriminate|].
        split; [intros j [= <-]; reflexivity|].
        intros j age _ H; discriminate H.
      * split; [intros j age H; discriminate H|].
        split; [intros y; cbn [fst]; split; intros [= ->]; reflexivity|].
        split; [intros j H; discriminate H|].
        intros j age _ H; discriminate H.
  - split; [intros j age [= <- _]; reflexivity|].
    split; [intros y; split; discriminate|].
    split; [intros j [= <-]; reflexivity|].
    intros j age _ H; discriminate H.
  - split; [intros j age H; discriminate H|].
    split; [intros y; cbn [fst]; split; intros [= ->]; reflexivity|].
    split; [intros j H; discriminate H|].
    intros j age _ H; discriminate H.
Qed.

(** *** Clearing *)

Lemma ends_with_json (key : string) : ends_with ".json" (key +:+ ".json") = true.
Proof.
  induction key as [|c key IH]; [reflexivity|].
  change (String c key +:+ ".json") with (String c (key +:+ ".json")).
  simpl. rewrite IH. apply orb_true_r.
Qed.

Lemma clear_cache_files (unlink_fails : string -> bool) (e : env) (d : disk) (name : string) :
  exists_fails (flt e) = false -> dir_exists d = true ->
  files (snd (clear_cache Listed unlink_fails e d)) !! name =
  if negb (ends_with ".json" name) || unlink_fails name || is_directory d name
  then files d !! name else None.
Proof.
  intros He Hdir. unfold clear_cache, is_directory. rewrite He, Hdir. simpl.
  destruct (files d !! name) as [f|] eqn:Hf.
  - destruct (negb (ends_with ".json" name) || unlink_fails name || is_dir_entry f) eqn:Hk.
    + apply map_lookup_filter_Some. split; [exact Hf | exact Hk].
    + apply map_lookup_filter_None. right. intros f' Hf' Hk'. simpl in Hk'.
      assert (f' = f) by congruence. subst f'. congruence.
  - assert (H : filter (fun entry : string * file =>
                  negb (ends_with ".json" entry.1) || unlink_fails entry.1
                  || is_dir_entry entry.2 = true)
                  (files d) !! name = None)
      by (apply map_lookup_filter_None; left; exact Hf).
    rewrite H. destruct (_ || _); reflexivity.
Qed.

(** [clear_cache] raises when [CACHE_DIR.exists()] fails and when the
    directory cannot be listed for a reason other than a refused
    permission; it does nothing without the cache directory and when the
    listing is refused.  Otherwise it removes every entry named [*.json]
    that is no directory and that the operating system lets it remove,
    and nothing else: afterwards each such key loads as a miss, the
    preference file (itself a [.json] file of the directory) is gone as
    well, and every other entry is as it was. *)
Theorem clear_cache_empties :
  forall (listed : listing) (unlink_fails : string -> bool) (e : env) (d : disk),
    (exists_fails (flt e) = true ->
     clear_cache listed unlink_fails e d = (Raise (os_error "stat"), d))
    /\ (exists_fails (flt e) = false -> dir_exists d = false ->
        clear_cache listed unlink_fails e d = (Ok tt, d))
    /\ (exists_fails (flt e) = false -> dir_exists d = true -> listed = Failed ->
        clear_cache listed unlink_fails e d = (Raise (os_error "scandir"), d))
    /\ (exists_fails (flt e) = false -> dir_exists d = true -> listed = Denied ->
        clear_cache listed unlink_fails e d = (Ok tt, d))
    /\ (exists_fails (flt e) = false -> dir_exists d = true -> listed = Listed ->
        fst (clear_cache listed unlink_fails e d) = Ok tt
        /\ let d' := snd (clear_cache listed unlink_fails e d) in
           (forall key ttl e',
               plain_key key -> exists_fails (flt e') = false ->
               unlink_fails (key +:+ ".json") = false ->
               is_directory d (key +:+ ".json") = false ->
               load_cache key ttl e' d' = (Ok JNull, d'))
           /\ (unlink_fails MODEL_CACHE_FILE = false ->
               is_directory d MODEL_CACHE_FILE = false ->
               forall provider e',
                 exists_fails (flt e') = false ->
                 get_cached_model provider e' d' = (Return JNull, d'))
           /\ (forall name,
                 ends_with ".json" name = false \/ unlink_fails name = true
                 \/ is_directory d name = true ->
                 files d' !! name = files d !! name)).
Proof.
  intros listed unlink_fails e d.
  split; [|split; [|split; [|split]]].
  - intros He. unfold clear_cache. rewrite He. reflexivity.
  - intros He Hdir. unfold clear_cache. rewrite He, Hdir. reflexivity.
  - intros He Hdir ->. unfold clear_cache. rewrite He, Hdir. reflexivity.
  - intros He Hdir ->. unfold clear_cache. rewrite He, Hdir. reflexivity.
  - intros He Hdir ->. split; [unfold clear_cache; rewrite He, Hdir; reflexivity|].
    intros d'. split; [|split].
    + intros key ttl e' Hkey He' Hu Hnd.
      assert (Hf : files d' !! (key +:+ ".json") = None).
      { unfold d'. rewrite (clear_cache_files _ _ _ _ He Hdir), ends_with_json, Hu, Hnd.
        reflexivity. }
      rewrite (cache_proofs.load_cache_child key ttl e' d' Hkey), He', Hf. reflexivity.
    + intros Hu Hnd provider e' He'.
      assert (Hf : files d' !! MODEL_CACHE_FILE = None).
      { unfold d'. rewrite (clear_cache_files _ _ _ _ He Hdir), Hu, Hnd. reflexivity. }
      unfold get_cached_model.
      rewrite cache_proofs.load_model_cache_eq, He', Hf. reflexivity.
    + intros name Hname. unfold d'. rewrite (clear_cache_files _ _ _ _ He Hdir).
      destruct Hname as [-> | [-> | ->]]; [reflexivity | |];
        rewrite ?orb_true_r; reflexivity.
Qed.

(** *** Preferences *)




End cache_ext_proofs.

(** ** The rest of dates.py *)

Module dates_ext_proofs.
Import Py dates dates_ext Spec Spec2.

(** *** Decimal numerals *)

Lemma digit_char (r : Z) :
  0 <= r <= 9 ->
  isdigit (ascii_of_N (Z.to_N (48 + r))) = true
  /\ digit_value (ascii_of_N (Z.to_N (48 + r))) = r.
Proof.
  intros H.
  assert (Hr : r = 0 \/ r = 1 \/ r = 2 \/ r = 3 \/ r = 4 \/ r = 5 \/ r = 6 \/ r = 7
               \/ r = 8 \/ r = 9) by lia.
  repeat (destruct Hr as [-> | Hr]; [split; reflexivity|]). subst. split; reflexivity.
Qed.

Lemma int_of_digits_from_app (a : Z) (s t : string) :
  int_of_digits_from a (s +:+ t) = int_of_digits_from (int_of_digits_from a s) t.
Proof.
  revert a. induction s as [|c s IH]; intros a; [reflexivity|].
  change (String c s +:+ t) with (String c (s +:+ t)). simpl. apply IH.
Qed.

Lemma all_chars_app (p : ascii -> bool) (s t : string) :
  all_chars p (s +:+ t) = all_chars p s && all_chars p t.
Proof.
  induction s as [|c s IH]; [reflexivity|].
  change (String c s +:+ t) with (String c (s +:+ t)). simpl.
  rewrite IH, andb_assoc. reflexivity.
Qed.

Lemma digits_of_spec (fuel : nat) :
  forall n acc, 0 <= n < 2 ^ (Z.of_nat fuel + 1) ->
    exists s, digits_of fuel n acc = s +:+ acc
              /\ s <> EmptyString
              /\ all_chars isdigit s = true
              /\ forall a, int_of_digits_from a (s +:+ acc)
                           = int_of_digits_from (a * 10 ^ Z.of_nat (String.length s) + n) acc.
Proof.
  induction fuel as [|fuel IH]; intros n acc Hn.
  - assert (Hn' : 0 <= n <= 9) by (change (2 ^ (Z.of_nat 0 + 1)) with 2 in Hn; lia).
    simpl digits_of. rewrite Z.mod_small by lia.
    destruct (digit_char n Hn') as [Hd Hv].
    exists (String (ascii_of_N (Z.to_N (48 + n))) EmptyString).
    split; [reflexivity|]. split; [discriminate|]. split; [simpl; rewrite Hd; reflexivity|].
    intros a. simpl. rewrite Hv. f_equal. lia.
  - simpl digits_of.
    assert (Hm : 0 <= n mod 10 <= 9) by (pose proof (Z.mod_pos_bound n 10); lia).
    destruct (digit_char (n mod 10) Hm) as [Hd Hv].
    destruct (Z.ltb_spec n 10) as [Hlt | Hge].
    + exists (String (ascii_of_N (Z.to_N (48 + n mod 10))) EmptyString).
      split; [reflexivity|]. split; [discriminate|].
      split; [simpl; rewrite Hd; reflexivity|].
      intros a. simpl. rewrite Hv, Z.mod_small by lia. f_equal. lia.
    + assert (Hq : 0 <= n / 10 < 2 ^ (Z.of_nat fuel + 1)).
      { split; [apply Z.div_pos; lia|].
        apply Z.div_lt_upper_bound; [lia|].
        replace (Z.of_nat (S fuel) + 1) with (Z.succ (Z.of_nat fuel + 1)) in Hn by lia.
        rewrite Z.pow_succ_r in Hn by lia. lia. }
      destruct (IH (n / 10) (String (ascii_of_N (Z.to_N (48 + n mod 10))) acc) Hq)
        as (s & Hs & Hne & Hall & Hval).
      exists (s +:+ String (ascii_of_N (Z.to_N (48 + n mod 10))) EmptyString).
      split; [rewrite Hs, cache_ext_proofs.append_assoc; reflexivity|].
      split; [destruct s; [congruence | discriminate]|].
      split; [rewrite all_chars_app, Hall; simpl; rewrite Hd; reflexivity|].
      intros a. rewrite cache_ext_proofs.append_assoc.
      change (String (ascii_of_N (Z.to_N (48 + n mod 10))) "" +:+ acc)
        with (String (ascii_of_N (Z.to_N (48 + n mod 10))) acc).
      rewrite Hval. simpl int_of_digits_from at 1. rewrite Hv. f_equal.
      assert (Hlen : String.length (s +:+ String (ascii_of_N (Z.to_N (48 + n mod 10))) "")
                     = S (String.length s)).
      { clear. induction s as [|c s IH]; [reflexivity|].
        change (String c s +:+ ?t) with (String c (s +:+ t)). simpl. rewrite IH. reflexivity. }
      rewrite Hlen, Nat2Z.inj_succ, Z.pow_succ_r by lia.
      pose proof (Z.div_mod n 10). lia.
Qed.

Lemma str_of_nonneg_spec (n : Z) :
  0 <= n ->
  str_of_nonneg n <> EmptyString
  /\ all_chars isdigit (str_of_nonneg n) = true
  /\ int_of_digits (str_of_nonneg n) = n.
Proof.
  intros Hn. unfold str_of_nonneg.
  assert (Hb : 0 <= n < 2 ^ (Z.of_nat (Z.to_nat (Z.log2 n)) + 1)).
  { split; [exact Hn|]. rewrite Z2Nat.id by apply Z.log2_nonneg.
    destruct (Z.eq_dec n 0) as [-> | Hz]; [reflexivity|].
    replace (Z.log2 n + 1) with (Z.succ (Z.log2 n)) by lia.
    apply Z.log2_spec. lia. }
  destruct (digits_of_spec _ n EmptyString Hb) as (s & Hs & Hne & Hall & Hval).
  assert (Hs' : digits_of (Z.to_nat (Z.log2 n)) n "" = s).
  { rewrite Hs. clear. induction s as [|c s IH]; [reflexivity|].
    change (String c s +:+ "") with (String c (s +:+ "")). rewrite IH. reflexivity. }
  rewrite Hs'. split; [exact Hne|]. split; [exact Hall|].
  unfold int_of_digits. specialize (Hval 0).
  rewrite <- Hs' in Hval at 1. rewrite Hs in Hval. rewrite <- Hs, Hs' in Hval.
  rewrite Hs in Hs'. rewrite Hs' in Hval. exact Hval.
Qed.

Lemma digits_of_length (fuel : nat) :
  forall n acc, (String.length (digits_of fuel n acc) <= S fuel + String.length acc)%nat.
Proof.
  induction fuel as [|fuel IH]; intros n acc; simpl digits_of.
  - simpl. lia.
  - destruct (n <? 10); [simpl; lia|].
    etransitivity; [apply IH|]. simpl. lia.
Qed.

Lemma str_of_nonneg_length (n bound : Z) :
  0 <= n <= bound ->
  (String.length (str_of_nonneg n) <= S (Z.to_nat (Z.log2 bound)))%nat.
Proof.
  intros Hn. unfold str_of_nonneg.
  etransitivity; [apply digits_of_length|]. simpl String.length.
  pose proof (Z.log2_le_mono n bound (proj2 Hn)). pose proof (Z.log2_nonneg n). lia.
Qed.

(** *** get_range_label *)

Lemma seconds_over_lt (us k bound : Z) :
  0 < k ->
  Qlt_bool (total_seconds (Timedelta us) / (k # 1)) (bound # 1)
  = (us <? bound * (1000000 * k)).
Proof.
  intros Hk. unfold Qlt_bool. apply eq_true_iff_eq.
  rewrite negb_true_iff, <- not_true_iff_false, Qle_bool_iff, Z.ltb_lt.
  destruct k as [|pk|pk]; try lia.
  unfold total_seconds, Qle, Qdiv, Qmult, Qinv; simpl. nia.
Qed.

Lemma int_of_seconds_over (us k : Z) :
  0 <= us -> 0 < k ->
  int_of_float (total_seconds (Timedelta us) / (k # 1)) = us / (1000000 * k).
Proof.
  intros Hus Hk. destruct k as [|pk|pk]; try lia.
  unfold int_of_float, total_seconds, Qdiv, Qmult, Qinv; simpl.
  rewrite Z.quot_div_nonneg by lia.
  replace (us * 1) with us by lia. reflexivity.
Qed.

Lemma int_of_seconds_over2 (us k j : Z) :
  0 <= us -> 0 < k -> 0 < j ->
  int_of_float (total_seconds (Timedelta us) / (k # 1) / (j # 1)) = us / (1000000 * k * j).
Proof.
  intros Hus Hk Hj. destruct k as [|pk|pk]; try lia. destruct j as [|pj|pj]; try lia.
  unfold int_of_float, total_seconds, Qdiv, Qmult, Qinv; simpl.
  rewrite Z.quot_div_nonneg by lia.
  replace (us * 1 * 1) with us by lia.
  reflexivity.
Qed.

Lemma get_range_label_eq (us : Z) :
  0 <= us ->
  get_range_label (Timedelta us)
  = "last " +:+ str_of_int (fst (label_parts us)) +:+ " " +:+ snd (label_parts us)
    +:+ plural (fst (label_parts us)).
Proof.
  intros Hus. unfold get_range_label, label_parts. cbv zeta.
  rewrite !seconds_over_lt by lia.
  rewrite !int_of_seconds_over, !int_of_seconds_over2 by lia.
  change (24 * (1000000 * 3600)) with (24 * US_PER_HOUR).
  change (7 * (1000000 * 86400)) with (7 * US_PER_DAY).
  change (30 * (1000000 * 86400)) with (30 * US_PER_DAY).
  change (1000000 * 3600) with US_PER_HOUR.
  change (1000000 * 86400 * 7) with US_PER_WEEK.
  change (1000000 * 86400 * 30) with (30 * US_PER_DAY).
  change (1000000 * 86400) with US_PER_DAY.
  destruct (us <? 24 * US_PER_HOUR); [reflexivity|].
  destruct (us <? 7 * US_PER_DAY); [reflexivity|].
  destruct (us <? 30 * US_PER_DAY); reflexivity.
Qed.

(** For a window from nothing up to 3650 days, the label is "last", the
    number and the unit word, with an "s" unless the number is 1: whole
    hours (0 to 23) under a day, whole days (1 to 6) under a week, whole
    weeks (1 to 4) under 30 days, and whole months of 30 days (1 to 121)
    from there on, each rounded down. *)
Theorem get_range_label_parts :
  forall us : Z,
    0 <= us <= 3650 * US_PER_DAY ->
    get_range_label (Timedelta us)
    = "last " +:+ str_of_int (fst (label_parts us)) +:+ " " +:+ snd (label_parts us)
      +:+ plural (fst (label_parts us))
    /\ (us < 24 * US_PER_HOUR ->
        label_parts us = (us / US_PER_HOUR, "hour"%string) /\ 0 <= us / US_PER_HOUR <= 23)
    /\ (24 * US_PER_HOUR <= us < 7 * US_PER_DAY ->
        label_parts us = (us / US_PER_DAY, "day"%string) /\ 1 <= us / US_PER_DAY <= 6)
    /\ (7 * US_PER_DAY <= us < 30 * US_PER_DAY ->
        label_parts us = (us / US_PER_WEEK, "week"%string) /\ 1 <= us / US_PER_WEEK <= 4)
    /\ (30 * US_PER_DAY <= us ->
        label_parts us = (us / (30 * US_PER_DAY), "month"%string)
        /\ 1 <= us / (30 * US_PER_DAY) <= 121).
Proof.
  intros us [Hus Hmax]. split; [apply get_range_label_eq; exact Hus|].
  unfold label_parts, US_PER_WEEK, US_PER_DAY, US_PER_HOUR, US_PER_SECOND in *.
  split; [|split; [|split]]; intros Hr;
    repeat match goal with
           | |- context [?a <? ?b] => destruct (Z.ltb_spec a b); try lia
           end;
    (split; [reflexivity|]);
    (split; [apply Z.div_le_lower_bound; lia
            |apply Z.lt_succ_r, Z.div_lt_upper_bound; lia]).
Qed.

Lemma get_range_label_parts_witness :
  get_range_label (Timedelta (2 * US_PER_HOUR)) = "last 2 hours"%string.
Proof.
  apply (get_range_label_parts (2 * US_PER_HOUR)).
  unfold US_PER_DAY, US_PER_HOUR, US_PER_SECOND. lia.
Defined.

(** *** parse_range on written numbers *)

Lemma parse_range_number (n : Z) (unit : string) :
  0 <= n -> (String.length (str_of_int n) <= 4300)%nat -> In unit RANGE_UNITS ->
  parse_range (str_of_int n +:+ " " +:+ unit) = unit_delta unit n.
Proof.
  intros Hn Hlen Hu. unfold str_of_int in *.
  destruct (Z.ltb_spec n 0); [lia|].
  destruct (str_of_nonneg_spec n Hn) as (Hne & Hall & Hval).
  rewrite (dates_proofs.parse_range_of_syntax (str_of_nonneg n) " " unit Hne Hall eq_refl Hu).
  rewrite (dates_proofs.int_of_str_short _ Hlen), Hval. reflexivity.
Qed.

(** A number written in decimal, a blank and a unit word parse to that
    many hours, days, weeks of 7 days or months of 30 days, for every
    number from 0 on whose digits [int] takes (at most 4300 of them) and
    each of the twelve unit words; the result is an [OverflowError]
    exactly when the days exceed what a [timedelta] holds. *)
Theorem parse_range_reads_numbers :
  forall (n : Z) (unit : string),
    0 <= n -> (String.length (str_of_int n) <= 4300)%nat -> In unit RANGE_UNITS ->
    parse_range (str_of_int n +:+ " " +:+ unit)
    = new_timedelta
        (n * (if str_in unit ["h"; "hour"; "hours"] then US_PER_HOUR
              else if str_in unit ["d"; "day"; "days"] then US_PER_DAY
              else if str_in unit ["w"; "week"; "weeks"] then 7 * US_PER_DAY
              else 30 * US_PER_DAY)).
Proof.
  intros n unit Hn Hlen Hu. rewrite (parse_range_number n unit Hn Hlen Hu).
  unfold unit_delta, timedelta_hours, timedelta_days, timedelta_weeks, US_PER_WEEK.
  destruct (str_in unit ["h"; "hour"; "hours"]); [reflexivity|].
  destruct (str_in unit ["d"; "day"; "days"]); [reflexivity|].
  destruct (str_in unit ["w"; "week"; "weeks"]); f_equal; lia.
Qed.

Lemma parse_range_reads_numbers_witness :
  parse_range (str_of_int 3 +:+ " " +:+ "weeks") = new_timedelta (3 * (7 * US_PER_DAY)).
Proof.
  apply (parse_range_reads_numbers 3 "weeks"); [lia | vm_compute; lia | simpl; tauto].
Defined.

Lemma plural_unit (n : Z) (unit : string) :
  In unit ["hour"; "day"; "week"; "month"]%string ->
  In (unit +:+ plural n) RANGE_UNITS.
Proof.
  unfold plural. simpl. intros H.
  destruct (n =? 1); repeat (destruct H as [<- | H]; [simpl; tauto|]); contradiction.
Qed.

(** The label of a whole number of hours under a day, of days under a
    week, of weeks up to four, or of 30-day months reads, after its
    "last ", as a range that [parse_range] turns back into the same
    duration. *)
Theorem label_parses_back :
  forall n : Z,
    (0 <= n <= 23 ->
     exists text, get_range_label (Timedelta (n * US_PER_HOUR)) = "last " +:+ text
                  /\ parse_range text = Ok (Timedelta (n * US_PER_HOUR)))
    /\ (1 <= n <= 6 ->
        exists text, get_range_label (Timedelta (n * US_PER_DAY)) = "last " +:+ text
                     /\ parse_range text = Ok (Timedelta (n * US_PER_DAY)))
    /\ (1 <= n <= 4 ->
        exists text, get_range_label (Timedelta (n * US_PER_WEEK)) = "last " +:+ text
                     /\ parse_range text = Ok (Timedelta (n * US_PER_WEEK)))
    /\ (1 <= n <= 33333333 ->
        exists text, get_range_label (Timedelta (n * (30 * US_PER_DAY))) = "last " +:+ text
                     /\ parse_range text = Ok (Timedelta (n * (30 * US_PER_DAY)))).
Proof.
  intros n.
  assert (Hgen : forall us v unit,
            0 <= us -> 0 <= v <= 33333333 -> label_parts us = (v, unit) ->
            In unit ["hour"; "day"; "week"; "month"]%string ->
            unit_delta (unit +:+ plural v) v = Ok (Timedelta us) ->
            exists text, get_range_label (Timedelta us) = "last " +:+ text
                         /\ parse_range text = Ok (Timedelta us)).
  { intros us v unit Hus Hv Hparts Hunit Hdelta.
    exists (str_of_int v +:+ " " +:+ unit +:+ plural v).
    rewrite (get_range_label_eq us Hus), Hparts. split; [reflexivity|].
    assert (Hlen : (String.length (str_of_int v) <= 4300)%nat).
    { unfold str_of_int. destruct (Z.ltb_spec v 0); [lia|].
      etransitivity; [apply (str_of_nonneg_length v 33333333 Hv)|].
      apply Nat.leb_le. reflexivity. }
    rewrite (parse_range_number v (unit +:+ plural v) (proj1 Hv) Hlen
               (plural_unit v unit Hunit)).
    exact Hdelta. }
  assert (Hdelta : forall k, - MAX_DELTA_DAYS <= k / US_PER_DAY <= MAX_DELTA_DAYS ->
            new_timedelta k = Ok (Timedelta k)).
  { intros k Hk. unfold new_timedelta.
    destruct (Z.leb_spec (- MAX_DELTA_DAYS) (k / US_PER_DAY)); [|lia].
    destruct (Z.leb_spec (k / US_PER_DAY) MAX_DELTA_DAYS); [|lia]. reflexivity. }
  split; [|split; [|split]]; intros Hn.
  - apply (Hgen (n * US_PER_HOUR) n "hour"%string);
      [unfold US_PER_WEEK, US_PER_DAY, US_PER_HOUR, US_PER_SECOND; lia | lia | | simpl; tauto |].
    + unfold label_parts. rewrite Z.div_mul by discriminate.
      destruct (Z.ltb_spec (n * US_PER_HOUR) (24 * US_PER_HOUR)); [reflexivity|].
      unfold US_PER_HOUR, US_PER_SECOND in *. lia.
    + unfold unit_delta, plural, timedelta_hours.
      destruct (n =? 1); simpl; apply Hdelta;
        unfold MAX_DELTA_DAYS, US_PER_DAY, US_PER_HOUR, US_PER_SECOND;
        (split; [apply Z.le_trans with 0; [lia | apply Z.div_pos; lia]
                |apply Z.div_le_upper_bound; lia]).
  - apply (Hgen (n * US_PER_DAY) n "day"%string);
      [unfold US_PER_WEEK, US_PER_DAY, US_PER_HOUR, US_PER_SECOND; lia | lia | | simpl; tauto |].
    + unfold label_parts. rewrite Z.div_mul by discriminate.
      unfold US_PER_DAY, US_PER_HOUR, US_PER_SECOND in *.
      repeat match goal with
             | |- context [?a <? ?b] => destruct (Z.ltb_spec a b); try lia
             end.
      reflexivity.
    + unfold unit_delta, plural, timedelta_days.
      destruct (n =? 1); simpl; apply Hdelta;
        rewrite Z.div_mul by discriminate; unfold MAX_DELTA_DAYS; lia.
  - apply (Hgen (n * US_PER_WEEK) n "week"%string);
      [unfold US_PER_WEEK, US_PER_DAY, US_PER_HOUR, US_PER_SECOND; lia | lia | | simpl; tauto |].
    + unfold label_parts. rewrite Z.div_mul by discriminate.
      unfold US_PER_WEEK, US_PER_DAY, US_PER_HOUR, US_PER_SECOND in *.
      repeat match goal with
             | |- context [?a <? ?b] => destruct (Z.ltb_spec a b); try lia
             end.
      reflexivity.
    + unfold unit_delta, plural, timedelta_weeks.
      destruct (n =? 1); simpl; apply Hdelta;
        unfold US_PER_WEEK; rewrite Z.mul_assoc, Z.div_mul by discriminate;
        unfold MAX_DELTA_DAYS; lia.
  - apply (Hgen (n * (30 * US_PER_DAY)) n "month"%string);
      [unfold US_PER_WEEK, US_PER_DAY, US_PER_HOUR, US_PER_SECOND; lia | lia | | simpl; tauto |].
    + unfold label_parts. rewrite Z.div_mul by discriminate.
      unfold US_PER_WEEK, US_PER_DAY, US_PER_HOUR, US_PER_SECOND in *.
      repeat match goal with
             | |- context [?a <? ?b] => destruct (Z.ltb_spec a b); try lia
             end.
      reflexivity.
    + unfold unit_delta, plural, timedelta_days.
      destruct (n =? 1); simpl;
        (replace (n * 30 * US_PER_DAY) with (n * (30 * US_PER_DAY)) by lia);
        apply Hdelta;
        rewrite Z.mul_assoc, Z.div_mul by discriminate; unfold MAX_DELTA_DAYS; lia.
Qed.

(** *** parse_date *)

Lemma try_formats_none (lib : PyLib) (s : string) (formats : list string) :
  try_formats lib s formats = Ok None
  <-> Forall (fun fmt => exists e, strptime lib s fmt = Raise e
                                   /\ catches [ValueError] e = true) formats.
Proof.
  induction formats as [|fmt formats IH]; cbn [try_formats].
  - split; [constructor | reflexivity].
  - rewrite List.Forall_cons_iff.
    destruct (strptime lib s fmt) as [dt|e] eqn:Hp.
    + split; [discriminate|]. intros [(e & He & _) _]. discriminate.
    + destruct (catches [ValueError] e) eqn:Hc.
      * split; [intros H; split; [eauto | apply IH, H] | intros [_ H]; apply IH, H].
      * split; [discriminate|]. intros [(e' & He & Hc') _]. congruence.
Qed.

(** [parse_date] returns [None] exactly for an absent or empty text and
    for a text that the timestamp reading refuses with a [ValueError] or
    a [TypeError] and every one of the five formats refuses with a
    [ValueError]; and a text that reads as a timestamp is returned as
    that instant, whatever the formats would make of it. *)
Theorem parse_date_none_iff :
  forall (lib : PyLib) (date_str : option string),
    (parse_date lib date_str = Ok None
     <-> date_str = None \/ date_str = Some EmptyString
         \/ exists s, date_str = Some s /\ s <> EmptyString
              /\ (exists e, (ts ← float_of_str lib s; fromtimestamp lib ts) = Raise e
                            /\ catches [ValueError; TypeError] e = true)
              /\ Forall (fun fmt => exists e, strptime lib s fmt = Raise e
                                              /\ catches [ValueError] e = true)
                   DATE_FORMATS)
    /\ (forall s ts dt,
          s <> EmptyString -> float_of_str lib s = Ok ts -> fromtimestamp lib ts = Ok dt ->
          parse_date lib (Some s) = Ok (Some dt)).
Proof.
  intros lib date_str. split.
  - destruct date_str as [[|c s]|]; cbn [parse_date].
    + split; auto.
    + destruct (float_of_str lib (String c s) ≫= (fun ts => fromtimestamp lib ts))
        as [dt|e] eqn:Hts.
      * split; [discriminate|].
        intros [H | [H | (s' & Hs & _ & (e & He & _) & _)]]; try discriminate.
        injection Hs as <-. congruence.
      * destruct (catches [ValueError; TypeError] e) eqn:Hc.
        -- rewrite try_formats_none. split.
           ++ intros H. right. right. exists (String c s).
              split; [reflexivity|]. split; [discriminate|]. split; [eauto | exact H].
           ++ intros [H | [H | (s' & Hs & _ & _ & H)]]; try discriminate.
              injection Hs as <-. exact H.
        -- split; [discriminate|].
           intros [H | [H | (s' & Hs & _ & (e' & He & Hc') & _)]]; try discriminate.
           injection Hs as <-. congruence.
    + split; auto.
  - intros s ts dt Hne Hf Ht. unfold parse_date. destruct s; [congruence|].
    rewrite Hf. simpl. rewrite Ht. reflexivity.
Qed.

End dates_ext_proofs.

(** ** Calendar dates and their text *)

Module calendar_proofs.
Import Py dates dates_ext normalize Spec Spec2.

(** *** The day count and the civil date *)

Ltac split_bools :=
  repeat match goal with
  | |- context [?a <? ?b] => destruct (Z.ltb_spec a b)
  | |- context [?a <=? ?b] => destruct (Z.leb_spec a b)
  end.

Lemma days_of_date_of_days (n : Z) : days_of_date (date_of_days n) = n.
Proof.
  unfold days_of_date, date_of_days. cbv zeta. cbn [year month day].
  split_bools; Z.to_euclidean_division_equations; lia.
Qed.

Lemma doe_parts (doe : Z) :
  0 <= doe < 146097 ->
  let yoe := (doe - doe / 1460 + doe / 36524 - doe / 146096) / 365 in
  let doy := doe - (365 * yoe + yoe / 4 - yoe / 100) in
  0 <= yoe <= 399 /\ 0 <= doy <= 365
  /\ (doy = 365 -> (yoe + 1) mod 4 = 0 /\ ((yoe + 1) mod 100 <> 0 \/ (yoe + 1) mod 400 = 0)).
Proof.
  intros H yoe doy. subst yoe doy.
  Z.to_euclidean_division_equations; lia.
Qed.

Lemma doy_parts (doy : Z) :
  0 <= doy <= 365 ->
  let mp := (5 * doy + 2) / 153 in
  let d := doy - (153 * mp + 2) / 5 + 1 in
  0 <= mp <= 11 /\ 1 <= d <= 31
  /\ (mp = 1 \/ mp = 3 \/ mp = 6 \/ mp = 8 -> d <= 30)
  /\ (mp = 11 -> d <= 29 /\ (d = 29 -> doy = 365)).
Proof.
  intros H mp d. subst mp d.
  Z.to_euclidean_division_equations; lia.
Qed.

Lemma is_leap_shift (yoe era : Z) :
  (yoe + 1) mod 4 = 0 ->
  (yoe + 1) mod 100 <> 0 \/ (yoe + 1) mod 400 = 0 ->
  is_leap (yoe + era * 400 + 1) = true.
Proof.
  intros H4 H100. unfold is_leap.
  replace (yoe + era * 400 + 1) with (yoe + 1 + era * 400) by lia.
  assert (E4 : (yoe + 1 + era * 400) mod 4 = 0)
    by (Z.to_euclidean_division_equations; lia).
  rewrite E4. simpl.
  destruct H100 as [H | H].
  - assert (E : (yoe + 1 + era * 400) mod 100 <> 0)
      by (Z.to_euclidean_division_equations; lia).
    apply Z.eqb_neq in E. rewrite E. reflexivity.
  - assert (E : (yoe + 1 + era * 400) mod 400 = 0)
      by (Z.to_euclidean_division_equations; lia).
    rewrite E. apply orb_true_r.
Qed.

(** Every day of the years 1..9999 has a date that [date(y, m, d)]
    accepts. *)
Lemma date_of_days_valid (n : Z) :
  0 <= n < MAX_ORDINAL ->
  valid_date (year (date_of_days n)) (month (date_of_days n))
             (day (date_of_days n)) = true.
Proof.
  intros Hn. unfold date_of_days. cbv zeta. cbn [year month day].
  set (z := n + 306).
  set (era := z / 146097). set (doe := z mod 146097).
  assert (Hdoe : 0 <= doe < 146097) by (apply Z.mod_pos_bound; lia).
  pose proof (doe_parts doe Hdoe) as Hy. cbv zeta in Hy.
  set (yoe := (doe - doe / 1460 + doe / 36524 - doe / 146096) / 365) in *.
  set (doy := doe - (365 * yoe + yoe / 4 - yoe / 100)) in *.
  destruct Hy as (Hyoe & Hdoy & Hleap).
  pose proof (doy_parts doy Hdoy) as Hm. cbv zeta in Hm.
  set (mp := (5 * doy + 2) / 153) in *.
  set (d := doy - (153 * mp + 2) / 5 + 1) in *.
  destruct Hm as (Hmp & Hd & H30 & Hfeb).
  assert (Hera : 0 <= era <= 24).
  { unfold era, z, MAX_ORDINAL in *. Z.to_euclidean_division_equations; lia. }
  assert (Hdoy_eq : doe = 365 * yoe + yoe / 4 - yoe / 100 + doy) by (unfold doy; lia).
  assert (Hz : z = 146097 * era + doe) by (apply Z.div_mod; lia).
  assert (Hmp_doy : (mp < 10 -> doy < 306) /\ (10 <= mp -> 306 <= doy)).
  { unfold mp. Z.to_euclidean_division_equations; lia. }
  assert (Hyear : 1 <= yoe + era * 400
                       + (if (if mp <? 10 then mp + 3 else mp - 9) <=? 2 then 1 else 0)
                  <= 9999).
  { unfold MAX_ORDINAL in Hn. clearbody doy mp d yoe era doe. clear Hleap H30 Hfeb Hd.
    destruct (Z.ltb_spec mp 10);
      [destruct (Z.leb_spec (mp + 3) 2) | destruct (Z.leb_spec (mp - 9) 2)]; try lia.
    - unfold z in *. Z.to_euclidean_division_equations; lia.
    - unfold z in *. Z.to_euclidean_division_equations; lia. }
  unfold valid_date, days_in_month.
  destruct (Z.ltb_spec mp 10) as [Hlt | Hge].
  - destruct (Z.leb_spec (mp + 3) 2); [lia |].
    replace (mp + 3 =? 2) with false by (symmetry; apply Z.eqb_neq; lia).
    assert (Hdim : d <= if (mp + 3 =? 4) || (mp + 3 =? 6) || (mp + 3 =? 9) || (mp + 3 =? 11)
                        then 30 else 31).
    { destruct ((mp + 3 =? 4) || (mp + 3 =? 6) || (mp + 3 =? 9) || (mp + 3 =? 11)) eqn:E;
        [| lia].
      apply H30.
      repeat (apply orb_true_iff in E; destruct E as [E | E]); apply Z.eqb_eq in E; lia. }
    repeat (apply andb_true_intro; split); apply Z.leb_le; lia.
  - destruct (Z.leb_spec (mp - 9) 2); [| lia].
    assert (Hdim : d <= if mp - 9 =? 2
                        then if is_leap (yoe + era * 400 + 1) then 29 else 28
                        else if (mp - 9 =? 4) || (mp - 9 =? 6) || (mp - 9 =? 9) || (mp - 9 =? 11)
                             then 30 else 31).
    { destruct (Z.eqb_spec (mp - 9) 2) as [E2 | E2].
      - destruct Hfeb as [H29 Hlast]; [lia |].
        destruct (Z.eq_dec d 29) as [E29 | E29].
        + destruct (Hleap (Hlast E29)) as [l4 l100].
          rewrite (is_leap_shift _ _ l4 l100). lia.
        + destruct (is_leap _); lia.
      - replace ((mp - 9 =? 4) || (mp - 9 =? 6) || (mp - 9 =? 9) || (mp - 9 =? 11))
          with false; [lia |].
        symmetry. repeat (apply orb_false_intro); apply Z.eqb_neq; lia. }
    repeat (apply andb_true_intro; split); apply Z.leb_le; lia.
Qed.

(** *** The order of dates *)

(** The days before a year that starts in March. *)
Lemma year_days (y : Z) :
  (y / 400) * 146097 + (y mod 400) * 365 + (y mod 400) / 4 - (y mod 400) / 100
  = 365 * y + y / 4 - y / 100 + y / 400.
Proof. Z.to_euclidean_division_equations; lia. Qed.

Lemma year_days_mono (a b : Z) :
  a < b ->
  365 * a + a / 4 - a / 100 + a / 400 + 365
  + (if is_leap (a + 1) then 1 else 0)
  <= 365 * b + b / 4 - b / 100 + b / 400.
Proof.
  intros H. unfold is_leap.
  destruct (Z.eqb_spec ((a + 1) mod 4) 0); cbn [andb];
    [destruct (Z.eqb_spec ((a + 1) mod 100) 0); cbn [negb orb];
       [destruct (Z.eqb_spec ((a + 1) mod 400) 0)|]|];
  Z.to_euclidean_division_equations; lia.
Qed.

Lemma days_of_date_form (y m d : Z) :
  days_of_date (Date y m d)
  = 365 * march_year y m + march_year y m / 4 - march_year y m / 100
    + march_year y m / 400 + march_offset m + d - 307.
Proof.
  unfold days_of_date, march_year, march_offset. cbv zeta. cbn [year month day].
  pose proof (year_days (if m <=? 2 then y - 1 else y)). lia.
Qed.

Ltac months m Hm :=
  let E := fresh "E" in
  assert (E : m = 1 \/ m = 2 \/ m = 3 \/ m = 4 \/ m = 5 \/ m = 6 \/ m = 7 \/ m = 8
              \/ m = 9 \/ m = 10 \/ m = 11 \/ m = 12) by lia;
  clear Hm; repeat (destruct E as [-> | E]); try subst m.

Lemma valid_date_fields (y m d : Z) :
  valid_date y m d = true ->
  1 <= y <= 9999 /\ 1 <= m <= 12 /\ 1 <= d <= days_in_month y m.
Proof.
  unfold valid_date. intros H.
  repeat (apply andb_prop in H; destruct H as [H ?]).
  repeat match goal with H : (_ <=? _) = true |- _ => apply Z.leb_le in H end.
  lia.
Qed.

Lemma offset_bound (y m d : Z) :
  valid_date y m d = true ->
  0 <= march_offset m + d - 1
    <= 364 + (if is_leap (march_year y m + 1) then 1 else 0).
Proof.
  intros Hv. destruct (valid_date_fields _ _ _ Hv) as (_ & Hm & Hd).
  months m Hm; unfold march_offset, march_year, days_in_month in *; simpl in *;
    try (destruct (is_leap _); Z.to_euclidean_division_equations; lia).
  replace (y - 1 + 1) with y by lia.
  destruct (is_leap y); Z.to_euclidean_division_equations; lia.
Qed.

Lemma offset_lt (y1 m1 d1 m2 d2 : Z) :
  valid_date y1 m1 d1 = true -> 1 <= m2 <= 12 -> 1 <= d2 ->
  (m1 + 9) mod 12 < (m2 + 9) mod 12 ->
  march_offset m1 + d1 < march_offset m2 + d2.
Proof.
  intros Hv Hm2 Hd2. destruct (valid_date_fields _ _ _ Hv) as (_ & Hm & Hd).
  assert (Hd1 : d1 <= if m1 =? 2 then 29 else days_in_month y1 m1).
  { unfold days_in_month in *. destruct (m1 =? 2); [destruct (is_leap y1)|]; lia. }
  clear Hd Hv.
  months m1 Hm; unfold march_offset, days_in_month in *; simpl in Hd1 |- *; intros Hlt;
    months m2 Hm2; simpl in Hlt |- *; Z.to_euclidean_division_equations; lia.
Qed.

(** An earlier date has a smaller day count. *)
Lemma days_of_date_lt (y1 m1 d1 y2 m2 d2 : Z) :
  valid_date y1 m1 d1 = true -> valid_date y2 m2 d2 = true ->
  date_ltb (Date y1 m1 d1) (Date y2 m2 d2) = true ->
  days_of_date (Date y1 m1 d1) < days_of_date (Date y2 m2 d2).
Proof.
  intros H1 H2 Hlt. rewrite !days_of_date_form.
  pose proof (offset_bound _ _ _ H1) as B1. pose proof (offset_bound _ _ _ H2) as B2.
  destruct (valid_date_fields _ _ _ H1) as (_ & Hm1 & Hd1).
  destruct (valid_date_fields _ _ _ H2) as (_ & Hm2 & Hd2).
  pose proof (offset_lt _ _ _ m2 d2 H1 Hm2 (proj1 Hd2)) as Hoff.
  assert (Hlex : y1 < y2 \/ (y1 = y2 /\ (m1 < m2 \/ (m1 = m2 /\ d1 < d2)))).
  { unfold date_ltb, date_leb in Hlt. cbn [year month day] in Hlt.
    apply negb_true_iff in Hlt.
    apply orb_false_elim in Hlt. destruct Hlt as [Ha Hb].
    apply Z.ltb_ge in Ha.
    apply andb_false_iff in Hb. destruct Hb as [Hb | Hb].
    - apply Z.eqb_neq in Hb. lia.
    - apply orb_false_elim in Hb. destruct Hb as [Hb Hc]. apply Z.ltb_ge in Hb.
      apply andb_false_iff in Hc. destruct Hc as [Hc | Hc].
      + apply Z.eqb_neq in Hc. lia.
      + apply Z.leb_gt in Hc. lia. }
  assert (Hcases : march_year y1 m1 < march_year y2 m2
                   \/ (march_year y1 m1 = march_year y2 m2
                       /\ ((m1 + 9) mod 12 < (m2 + 9) mod 12 \/ (m1 = m2 /\ d1 < d2)))).
  { unfold march_year. clear B1 B2 Hoff H1 H2.
    destruct (Z.leb_spec m1 2), (Z.leb_spec m2 2);
      Z.to_euclidean_division_equations; lia. }
  destruct Hcases as [Hy | [Hy [Hm | [-> Hd]]]].
  - pose proof (year_days_mono _ _ Hy). destruct (is_leap (march_year y1 m1 + 1)); lia.
  - rewrite Hy. specialize (Hoff Hm). lia.
  - rewrite Hy. lia.
Qed.

(** *** YYYY-MM-DD *)

Lemma dg_digit (n : Z) : isdigit (dg n) = true /\ digit_value (dg n) = n mod 10.
Proof.
  apply dates_ext_proofs.digit_char. pose proof (Z.mod_pos_bound n 10). lia.
Qed.

Lemma zero_pad_from_app (w : nat) :
  forall n acc, zero_pad_from w n acc = zero_pad w n +:+ acc.
Proof.
  unfold zero_pad. induction w as [|w IH]; intros n acc; [reflexivity|].
  simpl. rewrite IH. rewrite (IH (n / 10) (String _ EmptyString)).
  rewrite cache_ext_proofs.append_assoc. reflexivity.
Qed.

Lemma take_year_zero_pad (y : Z) (rest : string) :
  0 <= y <= 9999 -> take_year (zero_pad 4 y +:+ rest) = Some (y, rest).
Proof.
  intros Hy.
  change (zero_pad 4 y +:+ rest)
    with (String (dg (y / 10 / 10 / 10)) (String (dg (y / 10 / 10))
            (String (dg (y / 10)) (String (dg y) rest)))).
  unfold take_year.
  destruct (dg_digit (y / 10 / 10 / 10)) as [-> Ha], (dg_digit (y / 10 / 10)) as [-> Hb],
           (dg_digit (y / 10)) as [-> Hc], (dg_digit y) as [-> Hd].
  cbn [andb]. unfold int_of_digits. cbn [int_of_digits_from].
  rewrite Ha, Hb, Hc, Hd. do 2 f_equal.
  Z.to_euclidean_division_equations; lia.
Qed.

Lemma month_day_zero_pad (m d : Z) (rest : string) :
  1 <= m <= 12 -> 1 <= d <= 31 ->
  first_month_day (month_matches (zero_pad 2 m +:+ String "-" (zero_pad 2 d +:+ rest)))
  = Some (m, d, rest).
Proof.
  intros Hm Hd.
  assert (Em : m = 1 \/ m = 2 \/ m = 3 \/ m = 4 \/ m = 5 \/ m = 6 \/ m = 7 \/ m = 8
               \/ m = 9 \/ m = 10 \/ m = 11 \/ m = 12) by lia.
  assert (Ed : d = 1 \/ d = 2 \/ d = 3 \/ d = 4 \/ d = 5 \/ d = 6 \/ d = 7 \/ d = 8
               \/ d = 9 \/ d = 10 \/ d = 11 \/ d = 12 \/ d = 13 \/ d = 14 \/ d = 15
               \/ d = 16 \/ d = 17 \/ d = 18 \/ d = 19 \/ d = 20 \/ d = 21 \/ d = 22
               \/ d = 23 \/ d = 24 \/ d = 25 \/ d = 26 \/ d = 27 \/ d = 28 \/ d = 29
               \/ d = 30 \/ d = 31) by lia.
  clear Hm Hd.
  repeat (destruct Em as [-> | Em]);
    try subst m; repeat (destruct Ed as [-> | Ed]); try subst d; vm_compute; reflexivity.
Qed.

Lemma valid_date_bounds (y m d : Z) :
  valid_date y m d = true -> 1 <= y <= 9999 /\ 1 <= m <= 12 /\ 1 <= d <= 31.
Proof.
  unfold valid_date, days_in_month. intros H.
  repeat (apply andb_prop in H; destruct H as [H ?]).
  repeat match goal with H : (_ <=? _) = true |- _ => apply Z.leb_le in H end.
  destruct (m =? 2); [destruct (is_leap y)|destruct (_ || _)]; lia.
Qed.

Lemma append_empty (s : string) : s +:+ EmptyString = s.
Proof.
  induction s as [|a s IH]; [reflexivity|].
  change (String a s +:+ EmptyString) with (String a (s +:+ EmptyString)).
  rewrite IH. reflexivity.
Qed.

Lemma cons_app (c : ascii) (r : string) : String c EmptyString +:+ r = String c r.
Proof. reflexivity. Qed.

(** [strptime] reads the text of a date back as that date. *)
Lemma strptime_date_isoformat (y m d : Z) :
  valid_date y m d = true ->
  strptime_date (date_isoformat (Date y m d)) = Ok (Date y m d).
Proof.
  intros Hv. destruct (valid_date_bounds _ _ _ Hv) as (Hy & Hm & Hd).
  unfold strptime_date, date_isoformat. cbn [year month day].
  rewrite take_year_zero_pad by lia.
  rewrite !cons_app. rewrite <- (append_empty (zero_pad 2 d)).
  rewrite (month_day_zero_pad m d EmptyString Hm Hd), Hv. reflexivity.
Qed.

(** [strptime] refuses the text of a date with anything after it. *)
Lemma strptime_date_isoformat_more (y m d : Z) (c : ascii) (more : string) :
  valid_date y m d = true ->
  strptime_date (date_isoformat (Date y m d) +:+ String c more)
  = Raise (value_error "unconverted data remains").
Proof.
  intros Hv. destruct (valid_date_bounds _ _ _ Hv) as (Hy & Hm & Hd).
  unfold strptime_date, date_isoformat. cbn [year month day].
  rewrite !cache_ext_proofs.append_assoc.
  rewrite take_year_zero_pad by lia.
  rewrite !cons_app.
  rewrite (month_day_zero_pad m d (String c more) Hm Hd). reflexivity.
Qed.
Lemma date_leb_antisym (x y : date) :
  date_leb x y = true -> date_leb y x = true -> x = y.
Proof.
  destruct x as [y1 m1 d1], y as [y2 m2 d2]. unfold date_leb. cbn [year month day].
  intros H1 H2.
  assert (y1 = y2 /\ m1 = m2 /\ d1 = d2) as (-> & -> & ->); [|reflexivity].
  destruct (Z.ltb_spec y1 y2), (Z.ltb_spec y2 y1), (Z.eqb_spec y1 y2), (Z.eqb_spec y2 y1),
    (Z.ltb_spec m1 m2), (Z.ltb_spec m2 m1), (Z.eqb_spec m1 m2), (Z.eqb_spec m2 m1),
    (Z.leb_spec d1 d2), (Z.leb_spec d2 d1); simpl in *; try discriminate; lia.
Qed.

(** On the dates [date(y, m, d)] accepts, the order of dates is the
    order of their day counts. *)
Lemma date_leb_days (x y : date) :
  valid_date (year x) (month x) (day x) = true ->
  valid_date (year y) (month y) (day y) = true ->
  date_leb x y = (days_of_date x <=? days_of_date y).
Proof.
  intros Hx Hy.
  destruct (date_leb x y) eqn:Hxy.
  - symmetry. apply Z.leb_le.
    destruct (date_leb y x) eqn:Hyx.
    + rewrite (date_leb_antisym _ _ Hxy Hyx). lia.
    + destruct x, y. cbn [year month day] in *.
      apply Z.lt_le_incl, days_of_date_lt; try assumption.
      unfold date_ltb. rewrite Hyx. reflexivity.
  - symmetry. apply Z.leb_gt.
    destruct x, y. cbn [year month day] in *.
    apply days_of_date_lt; try assumption.
    unfold date_ltb. rewrite Hxy. reflexivity.
Qed.

Lemma date_leb_of_days (a b : Z) :
  0 <= a < MAX_ORDINAL -> 0 <= b < MAX_ORDINAL ->
  date_leb (date_of_days a) (date_of_days b) = (a <=? b).
Proof.
  intros Ha Hb.
  rewrite date_leb_days by (apply date_of_days_valid; assumption).
  rewrite !days_of_date_of_days. reflexivity.
Qed.

Lemma day_number_range (t : datetime) :
  datetime_in_range (dt_us t) = true -> 0 <= day_number t < MAX_ORDINAL.
Proof.
  unfold datetime_in_range, day_number, US_PER_DAY, US_PER_HOUR, US_PER_SECOND, MAX_ORDINAL.
  intros H. apply andb_prop in H. destruct H as [H1 H2].
  apply Z.leb_le in H1. apply Z.ltb_lt in H2.
  Z.to_euclidean_division_equations; lia.
Qed.

(** *** The order of the texts *)

Lemma dg_compare (x y : Z) : Ascii.compare (dg x) (dg y) = (x mod 10 ?= y mod 10).
Proof.
  pose proof (Z.mod_pos_bound x 10). pose proof (Z.mod_pos_bound y 10).
  unfold Ascii.compare, dg. rewrite !N_ascii_embedding by lia.
  rewrite Z2N.inj_compare by lia. apply Z.add_compare_mono_l.
Qed.

Lemma compare_zero_pad_from (w : nat) :
  forall x y r r',
    0 <= x < 10 ^ Z.of_nat w -> 0 <= y < 10 ^ Z.of_nat w ->
    String.compare (zero_pad_from w x r) (zero_pad_from w y r')
    = match x ?= y with Eq => String.compare r r' | c => c end.
Proof.
  induction w as [|w IH]; intros x y r r' Hx Hy.
  - change (10 ^ Z.of_nat 0) with 1 in *.
    replace x with 0 by lia. replace y with 0 by lia. reflexivity.
  - rewrite Nat2Z.inj_succ, Z.pow_succ_r in Hx, Hy by lia.
    cbn [zero_pad_from]. fold (dg x). fold (dg y).
    rewrite IH by (Z.to_euclidean_division_equations; lia).
    cbn [String.compare]. rewrite dg_compare.
    destruct (Z.compare_spec (x / 10) (y / 10)), (Z.compare_spec (x mod 10) (y mod 10)),
      (Z.compare_spec x y); try reflexivity; exfalso;
      Z.to_euclidean_division_equations; lia.
Qed.

Lemma compare_zero_pad (w : nat) (x y : Z) (r r' : string) :
  0 <= x < 10 ^ Z.of_nat w -> 0 <= y < 10 ^ Z.of_nat w ->
  String.compare (zero_pad w x +:+ r) (zero_pad w y +:+ r')
  = match x ?= y with Eq => String.compare r r' | c => c end.
Proof. rewrite <- !zero_pad_from_app. apply compare_zero_pad_from. Qed.

(** The texts of two dates compare as the dates do. *)
Lemma isoformat_ltb (x y : date) :
  valid_date (year x) (month x) (day x) = true ->
  valid_date (year y) (month y) (day y) = true ->
  String.ltb (date_isoformat x) (date_isoformat y) = date_ltb x y.
Proof.
  intros Hx Hy.
  destruct (valid_date_bounds _ _ _ Hx) as (Hy1 & Hm1 & Hd1).
  destruct (valid_date_bounds _ _ _ Hy) as (Hy2 & Hm2 & Hd2).
  destruct x as [y1 m1 d1], y as [y2 m2 d2]. cbn [year month day] in *.
  unfold String.ltb, date_isoformat. cbn [year month day].
  rewrite compare_zero_pad by (change (10 ^ Z.of_nat 4) with 10000; lia).
  rewrite !cons_app. cbn [String.compare]. change (Ascii.compare "-" "-") with Eq. cbv iota.
  rewrite compare_zero_pad by (change (10 ^ Z.of_nat 2) with 100; lia).
  cbn [String.compare]. change (Ascii.compare "-" "-") with Eq. cbv iota.
  rewrite <- (append_empty (zero_pad 2 d1)),
          <- (append_empty (zero_pad 2 d2)).
  rewrite compare_zero_pad by (change (10 ^ Z.of_nat 2) with 100; lia).
  cbn [String.compare].
  unfold date_ltb, date_leb. cbn [year month day].
  destruct (Z.compare_spec y1 y2), (Z.compare_spec m1 m2), (Z.compare_spec d1 d2);
    destruct (Z.ltb_spec y2 y1), (Z.eqb_spec y2 y1), (Z.ltb_spec m2 m1), (Z.eqb_spec m2 m1),
      (Z.leb_spec d2 d1); simpl; try reflexivity; lia.
Qed.

(** *** Dates and instants as [_normalize_date_for_comparison] sees them *)

Lemma dg_not_T (n : Z) : Ascii.eqb (dg n) "T" = false.
Proof.
  pose proof (Z.mod_pos_bound n 10) as H. unfold dg.
  assert (E : n mod 10 = 0 \/ n mod 10 = 1 \/ n mod 10 = 2 \/ n mod 10 = 3 \/ n mod 10 = 4
              \/ n mod 10 = 5 \/ n mod 10 = 6 \/ n mod 10 = 7 \/ n mod 10 = 8
              \/ n mod 10 = 9) by lia.
  repeat (destruct E as [-> | E]; [reflexivity|]). rewrite E. reflexivity.
Qed.

Lemma contains_app (c : ascii) (s t : string) :
  contains c (s +:+ t) = contains c s || contains c t.
Proof.
  induction s as [|a s IH]; [reflexivity|].
  change (String a s +:+ t) with (String a (s +:+ t)). cbn [contains].
  rewrite IH, orb_assoc. reflexivity.
Qed.

Lemma split_head_app (c : ascii) (s t : string) :
  contains c s = false -> split_head c (s +:+ String c t) = s.
Proof.
  induction s as [|a s IH]; intros H.
  - change (EmptyString +:+ String c t) with (String c t). cbn [split_head].
    rewrite Ascii.eqb_refl. reflexivity.
  - change (String a s +:+ String c t) with (String a (s +:+ String c t)).
    cbn [contains] in H. apply orb_false_elim in H. destruct H as [Ha Hs].
    cbn [split_head]. rewrite Ha, IH by assumption. reflexivity.
Qed.

Lemma zero_pad_no_T (w : nat) : forall n, contains "T" (zero_pad w n) = false.
Proof.
  induction w as [|w IH]; intros n; [reflexivity|].
  change (zero_pad (S w) n) with (zero_pad_from w (n / 10) (String (dg n) EmptyString)).
  rewrite zero_pad_from_app, contains_app, IH.
  cbn [contains orb]. rewrite dg_not_T. reflexivity.
Qed.

Lemma date_isoformat_no_T (d : date) : contains "T" (date_isoformat d) = false.
Proof.
  unfold date_isoformat. rewrite !contains_app, !zero_pad_no_T. reflexivity.
Qed.

Lemma date_isoformat_nonempty (d : date) : nonempty (date_isoformat d) = true.
Proof. reflexivity. Qed.

(** A date's text is left as it is. *)
Lemma normalize_date_isoformat (d : date) :
  _normalize_date_for_comparison (date_isoformat d) = date_isoformat d.
Proof.
  unfold _normalize_date_for_comparison.
  rewrite date_isoformat_nonempty, date_isoformat_no_T. reflexivity.
Qed.

(** An instant's text is cut down to the text of its date. *)
Lemma normalize_datetime_isoformat (t : datetime) :
  _normalize_date_for_comparison (datetime_isoformat t) = date_isoformat (date_of t).
Proof.
  unfold _normalize_date_for_comparison, datetime_isoformat. cbv zeta.
  rewrite cons_app.
  assert (Hne : forall r, nonempty (date_isoformat (date_of t) +:+ r) = true)
    by reflexivity.
  rewrite Hne. cbn [negb].
  rewrite contains_app. cbn [contains]. rewrite Ascii.eqb_refl, orb_true_r.
  apply split_head_app, date_isoformat_no_T.
Qed.

End calendar_proofs.

(** ** The window of get_date_range, seen by the other functions *)

Module window_proofs.
Import Py dates dates_ext normalize Spec Spec2 calendar_proofs.

Lemma date_of_valid (t : datetime) :
  datetime_in_range (dt_us t) = true ->
  valid_date (year (date_of t)) (month (date_of t)) (day (date_of t)) = true.
Proof. intros H. apply date_of_days_valid, day_number_range, H. Qed.

Lemma strptime_date_of (t : datetime) :
  datetime_in_range (dt_us t) = true ->
  strptime_date (date_isoformat (date_of t)) = Ok (date_of t).
Proof.
  intros H. pose proof (date_of_valid t H) as Hv.
  destruct (date_of t) as [y m d]. apply strptime_date_isoformat, Hv.
Qed.

Lemma days_of_date_of (t : datetime) : days_of_date (date_of t) = day_number t.
Proof. apply days_of_date_of_days. Qed.

Lemma days_ago_date_of (t now : datetime) :
  datetime_in_range (dt_us t) = true ->
  days_ago (Some (date_isoformat (date_of t))) now
  = Ok (Some (day_number now - day_number t)).
Proof.
  intros H. unfold days_ago.
  destruct (date_isoformat (date_of t)) eqn:E.
  - pose proof (date_isoformat_nonempty (date_of t)) as Hne. rewrite E in Hne. discriminate.
  - rewrite <- E, (strptime_date_of t H). cbn.
    unfold days_between. rewrite !days_of_date_of. reflexivity.
Qed.

(** What [get_date_range] returns, by the length of the window. *)
Lemma get_date_range_eq (duration : int_or_timedelta) (delta : timedelta)
    (now : datetime) (from_date to_date : string) :
  as_timedelta duration = Ok delta ->
  get_date_range duration now = Ok (from_date, to_date) ->
  datetime_in_range (dt_us now - td_us delta) = true
  /\ to_date = (if td_ltb delta (Timedelta US_PER_DAY)
                then datetime_isoformat now else date_isoformat (date_of now))
  /\ from_date = (if td_ltb delta (Timedelta US_PER_DAY)
                  then datetime_isoformat (Datetime (dt_us now - td_us delta))
                  else date_isoformat (date_of (Datetime (dt_us now - td_us delta)))).
Proof.
  intros Hd. unfold get_date_range. rewrite Hd. cbn. unfold dt_minus.
  destruct (datetime_in_range (dt_us now - td_us delta)); cbn; [|discriminate].
  destruct (td_ltb delta (Timedelta US_PER_DAY)); intros [= <- <-]; auto.
Qed.

Lemma day_span (now delta : Z) :
  delta - US_PER_DAY
  < (now / US_PER_DAY - (now - delta) / US_PER_DAY) * US_PER_DAY
  < delta + US_PER_DAY.
Proof.
  unfold US_PER_DAY, US_PER_HOUR, US_PER_SECOND.
  Z.to_euclidean_division_equations; lia.
Qed.

(** For a window of a day or more, [days_ago] places the end of the
    window [get_date_range] returns at 0 days and its start at the
    length of the window in days, within a day; a window of [n] whole
    days starts exactly [n] days ago. *)
Theorem days_ago_of_date_range (duration : int_or_timedelta) (delta : timedelta)
    (now : datetime) (from_date to_date : string) :
  datetime_in_range (dt_us now) = true ->
  as_timedelta duration = Ok delta ->
  US_PER_DAY <= td_us delta ->
  get_date_range duration now = Ok (from_date, to_date) ->
  days_ago (Some to_date) now = Ok (Some 0)
  /\ exists k,
       days_ago (Some from_date) now = Ok (Some k)
       /\ td_us delta - US_PER_DAY < k * US_PER_DAY < td_us delta + US_PER_DAY.
Proof.
  intros Hnow Hd Hlong Hr.
  destruct (get_date_range_eq _ _ _ _ _ Hd Hr) as (Hfrom & -> & ->).
  unfold td_ltb. cbn [td_us]. destruct (Z.ltb_spec (td_us delta) US_PER_DAY); [lia|].
  split.
  - rewrite (days_ago_date_of now now Hnow). do 2 f_equal. lia.
  - exists (day_number now - first_day now delta). split.
    + apply (days_ago_date_of (Datetime (dt_us now - td_us delta)) now Hfrom).
    + apply day_span.
Qed.

Lemma days_ago_of_date_range_witness :
  days_ago (Some "2026-01-15"%string) samples.jan15 = Ok (Some 0)
  /\ exists k,
       days_ago (Some "2026-01-08"%string) samples.jan15 = Ok (Some k)
       /\ 7 * US_PER_DAY - US_PER_DAY < k * US_PER_DAY < 7 * US_PER_DAY + US_PER_DAY.
Proof.
  apply (days_ago_of_date_range (AsInt 7) (Timedelta (7 * US_PER_DAY)) samples.jan15
           "2026-01-08" "2026-01-15");
    [reflexivity | reflexivity | discriminate | reflexivity].
Defined.

Lemma get_date_confidence_iso (x lo hi : date) :
  valid_date (year x) (month x) (day x) = true ->
  valid_date (year lo) (month lo) (day lo) = true ->
  valid_date (year hi) (month hi) (day hi) = true ->
  get_date_confidence (Some (date_isoformat x)) (date_isoformat lo) (date_isoformat hi)
  = Ok (if date_leb lo x && date_leb x hi then "high"%string else "low"%string).
Proof.
  intros Hx Hlo Hhi. unfold get_date_confidence.
  destruct (date_isoformat x) eqn:E.
  - pose proof (date_isoformat_nonempty x) as Hne. rewrite E in Hne. discriminate.
  - rewrite <- E. destruct x, lo, hi. cbn [year month day] in *.
    rewrite !strptime_date_isoformat by assumption. cbn.
    destruct (_ && _); [reflexivity|]. destruct (date_ltb _ _); reflexivity.
Qed.

(** For a window of a day or more, [get_date_confidence] with the
    boundaries of [get_date_range] rates the date of an instant 'high'
    exactly when its day lies from the first day of the window to today,
    and 'low' otherwise. *)
Theorem get_date_confidence_of_date_range (duration : int_or_timedelta)
    (delta : timedelta) (now t : datetime) (from_date to_date : string) :
  datetime_in_range (dt_us now) = true ->
  datetime_in_range (dt_us t) = true ->
  as_timedelta duration = Ok delta ->
  US_PER_DAY <= td_us delta ->
  get_date_range duration now = Ok (from_date, to_date) ->
  get_date_confidence (Some (date_isoformat (date_of t))) from_date to_date
  = Ok (if (first_day now delta <=? day_number t) && (day_number t <=? day_number now)
        then "high"%string else "low"%string).
Proof.
  intros Hnow Ht Hd Hlong Hr.
  destruct (get_date_range_eq _ _ _ _ _ Hd Hr) as (Hfrom & -> & ->).
  unfold td_ltb. cbn [td_us]. destruct (Z.ltb_spec (td_us delta) US_PER_DAY); [lia|].
  rewrite get_date_confidence_iso by (apply date_of_valid; assumption).
  unfold date_of. rewrite !date_leb_of_days by (apply day_number_range; assumption).
  reflexivity.
Qed.

Lemma get_date_confidence_of_date_range_witness :
  get_date_confidence (Some (date_isoformat (date_of (Datetime (739625 * US_PER_DAY)))))
    "2026-01-08" "2026-01-15"
  = Ok "high"%string.
Proof.
  apply (get_date_confidence_of_date_range (AsInt 7) (Timedelta (7 * US_PER_DAY))
           samples.jan15 (Datetime (739625 * US_PER_DAY)) "2026-01-08" "2026-01-15");
    [reflexivity | reflexivity | reflexivity | discriminate | reflexivity].
Defined.

Lemma strptime_date_datetime (t : datetime) :
  datetime_in_range (dt_us t) = true ->
  strptime_date (datetime_isoformat t) = Raise (value_error "unconverted data remains").
Proof.
  intros H. pose proof (date_of_valid t H) as Hv.
  unfold datetime_isoformat. cbv zeta. rewrite cons_app.
  destruct (date_of t) as [y m d]. apply strptime_date_isoformat_more, Hv.
Qed.

Lemma get_date_confidence_bad_start (date_str : option string)
    (from_date to_date : string) (e : exc) :
  strptime_date from_date = Raise e ->
  get_date_confidence date_str from_date to_date = Ok "low"%string.
Proof.
  intros Hbad. unfold get_date_confidence.
  destruct date_str as [[|c s]|]; try reflexivity.
  unfold try_except, mbind, result_bind, catches.
  destruct (strptime_date (String c s)) as [dt|e1] eqn:H1;
    [|rewrite (dates_proofs.strptime_date_raises _ _ H1); reflexivity].
  rewrite Hbad, (dates_proofs.strptime_date_raises _ _ Hbad). reflexivity.
Qed.

Lemma days_ago_datetime (t now : datetime) :
  datetime_in_range (dt_us t) = true ->
  days_ago (Some (datetime_isoformat t)) now = Ok None.
Proof.
  intros H. unfold days_ago.
  destruct (datetime_isoformat t) eqn:E.
  - discriminate E.
  - rewrite <- E, (strptime_date_datetime t H). reflexivity.
Qed.

(** For a window shorter than a day, the default of two hours among
    them, [get_date_range] returns two timestamps, which the date-only
    format of [get_date_confidence] and [days_ago] does not read: with
    these boundaries every date is rated 'low', today's too, and
    [days_ago] answers [None] for both boundaries. *)
Theorem short_window_never_high (duration : int_or_timedelta) (delta : timedelta)
    (now : datetime) (from_date to_date : string) (date_str : option string) :
  datetime_in_range (dt_us now) = true ->
  as_timedelta duration = Ok delta ->
  td_us delta < US_PER_DAY ->
  get_date_range duration now = Ok (from_date, to_date) ->
  get_date_confidence date_str from_date to_date = Ok "low"%string
  /\ days_ago (Some from_date) now = Ok None
  /\ days_ago (Some to_date) now = Ok None.
Proof.
  intros Hnow Hd Hshort Hr.
  destruct (get_date_range_eq _ _ _ _ _ Hd Hr) as (Hfrom & -> & ->).
  unfold td_ltb. cbn [td_us]. destruct (Z.ltb_spec (td_us delta) US_PER_DAY); [|lia].
  split; [|split].
  - apply (get_date_confidence_bad_start _ _ _ _
             (strptime_date_datetime (Datetime (dt_us now - td_us delta)) Hfrom)).
  - apply (days_ago_datetime (Datetime (dt_us now - td_us delta)) now Hfrom).
  - apply (days_ago_datetime now now Hnow).
Qed.

Lemma short_window_never_high_witness :
  get_date_confidence (Some "2026-01-15"%string)
    "2026-01-14T22:00:00+00:00" "2026-01-15T00:00:00+00:00" = Ok "low"%string
  /\ days_ago (Some "2026-01-14T22:00:00+00:00"%string) samples.jan15 = Ok None
  /\ days_ago (Some "2026-01-15T00:00:00+00:00"%string) samples.jan15 = Ok None.
Proof.
  apply (short_window_never_high (AsDelta (Timedelta (2 * US_PER_HOUR)))
           (Timedelta (2 * US_PER_HOUR)) samples.jan15
           "2026-01-14T22:00:00+00:00" "2026-01-15T00:00:00+00:00"
           (Some "2026-01-15"%string));
    reflexivity.
Defined.

Section with_library.
Context (lib : PyLib).

(** A timestamp the library turns into an instant gets from
    [timestamp_to_date] a text that [days_ago] reads: the age it reports
    is the number of days from the instant's day to today. *)
Theorem timestamp_to_date_days_ago (ts : pyfloat lib) (dt now : datetime) :
  fromtimestamp lib ts = Ok dt ->
  datetime_in_range (dt_us dt) = true ->
  exists text,
    timestamp_to_date lib (Some ts) = Ok (Some text)
    /\ days_ago (Some text) now = Ok (Some (day_number now - day_number dt)).
Proof.
  intros Hts Hdt. exists (date_isoformat (date_of dt)). split.
  - unfold timestamp_to_date. rewrite Hts. reflexivity.
  - apply days_ago_date_of, Hdt.
Qed.

End with_library.

Lemma timestamp_to_date_days_ago_witness :
  exists text,
    timestamp_to_date samples.sample_lib (Some (samples.Seconds 1768000000))
    = Ok (Some text)
    /\ days_ago (Some text) samples.jan15
       = Ok (Some (day_number samples.jan15
                   - day_number (Datetime ((samples.EPOCH_DAYS * 86400 + 1768000000)
                                           * US_PER_SECOND)))).
Proof.
  apply (timestamp_to_date_days_ago samples.sample_lib (samples.Seconds 1768000000)
           (Datetime ((samples.EPOCH_DAYS * 86400 + 1768000000) * US_PER_SECOND))
           samples.jan15);
    reflexivity.
Defined.

Section filter_facts.
Context {T : Type} (date : T -> option string).

Lemma normalize_boundaries (duration : int_or_timedelta) (delta : timedelta)
    (now : datetime) (from_date to_date : string) :
  as_timedelta duration = Ok delta ->
  get_date_range duration now = Ok (from_date, to_date) ->
  datetime_in_range (dt_us now - td_us delta) = true
  /\ _normalize_date_for_comparison from_date
     = date_isoformat (date_of (Datetime (dt_us now - td_us delta)))
  /\ _normalize_date_for_comparison to_date = date_isoformat (date_of now).
Proof.
  intros Hd Hr. destruct (get_date_range_eq _ _ _ _ _ Hd Hr) as (Hfrom & -> & ->).
  split; [exact Hfrom|].
  destruct (td_ltb delta (Timedelta US_PER_DAY));
    rewrite ?normalize_datetime_isoformat, ?normalize_date_isoformat; auto.
Qed.

(** With the boundaries of [get_date_range], whatever the length of the
    window, [filter_by_date_range] keeps an item dated at an instant, as a
    date or as a full timestamp, exactly when the instant's day lies from
    the first day of the window to today: the filter works in whole days,
    also for a window of hours. *)
Theorem filter_by_date_range_of_date_range (duration : int_or_timedelta)
    (delta : timedelta) (now t : datetime) (from_date to_date : string)
    (items : list T) (item : T) (require_date : bool) :
  datetime_in_range (dt_us now) = true ->
  datetime_in_range (dt_us t) = true ->
  as_timedelta duration = Ok delta ->
  get_date_range duration now = Ok (from_date, to_date) ->
  date item = Some (date_isoformat (date_of t))
  \/ date item = Some (datetime_isoformat t) ->
  In item (filter_by_date_range date items from_date to_date require_date)
  <-> In item items /\ first_day now delta <= day_number t <= day_number now.
Proof.
  intros Hnow Ht Hd Hr Hitem.
  destruct (normalize_boundaries _ _ _ _ _ Hd Hr) as (Hfrom & Elo & Ehi).
  rewrite normalize_proofs.filter_by_date_range_eq, filter_In.
  assert (Hkept : kept date from_date to_date require_date item
                  = (first_day now delta <=? day_number t)
                    && (day_number t <=? day_number now)).
  { unfold kept.
    assert (Hday : exists d, date item = Some d
                     /\ _normalize_date_for_comparison d = date_isoformat (date_of t)).
    { destruct Hitem as [E | E]; eexists; (split; [exact E|]).
      - apply normalize_date_isoformat.
      - apply normalize_datetime_isoformat. }
    destruct Hday as (d & -> & ->). cbv zeta. rewrite Elo, Ehi.
    rewrite !isoformat_ltb by (apply date_of_valid; assumption).
    unfold date_ltb. rewrite !negb_involutive.
    unfold date_of. rewrite !date_leb_of_days by (apply day_number_range; assumption).
    reflexivity. }
  rewrite Hkept, andb_true_iff, !Z.leb_le. tauto.
Qed.

End filter_facts.

Lemma filter_by_date_range_of_date_range_witness :
  In (Some (datetime_isoformat (Datetime (739630 * US_PER_DAY - 5 * US_PER_HOUR))))
     (filter_by_date_range (fun item : option string => item)
        [Some (datetime_isoformat (Datetime (739630 * US_PER_DAY - 5 * US_PER_HOUR)))]
        (datetime_isoformat (Datetime (739630 * US_PER_DAY - 2 * US_PER_HOUR)))
        (datetime_isoformat samples.jan15) true)
  <-> In (Some (datetime_isoformat (Datetime (739630 * US_PER_DAY - 5 * US_PER_HOUR))))
         [Some (datetime_isoformat (Datetime (739630 * US_PER_DAY - 5 * US_PER_HOUR)))]
      /\ first_day samples.jan15 (Timedelta (2 * US_PER_HOUR))
         <= day_number (Datetime (739630 * US_PER_DAY - 5 * US_PER_HOUR))
         <= day_number samples.jan15.
Proof.
  apply (filter_by_date_range_of_date_range (fun item : option string => item)
           (AsDelta (Timedelta (2 * US_PER_HOUR))) (Timedelta (2 * US_PER_HOUR))
           samples.jan15 (Datetime (739630 * US_PER_DAY - 5 * US_PER_HOUR)));
    [reflexivity | reflexivity | reflexivity | reflexivity | right; reflexivity].
Defined.

End window_proofs.

(** ** The URLs of the two sites *)

Module url_proofs.
Import Py dates normalize Spec Spec2.

Lemma lower_char_alpha (c : ascii) :
  isalpha (lower_char c) = true ->
  isalpha c = true /\ is_scheme_char c = true /\ Ascii.eqb c ":" = false.
Proof.
  destruct c as [[] [] [] [] [] [] [] []]; vm_compute; intros H;
    first [discriminate H | repeat split].
Qed.

Lemma lower_alpha (s : string) :
  all_chars isalpha (lower s) = true ->
  all_chars isalpha s = true /\ all_chars is_scheme_char s = true
  /\ contains ":" s = false.
Proof.
  induction s as [|c s IH]; [repeat split|].
  cbn [lower all_chars contains]. intros H. apply andb_true_iff in H as [Hc Hs].
  destruct (lower_char_alpha c Hc) as (-> & -> & ->).
  destruct (IH Hs) as (-> & -> & ->). repeat split.
Qed.

Lemma split_colon_app (a b : string) :
  contains ":" a = false -> split_colon (a +:+ String ":" b) = Some (a, b).
Proof.
  induction a as [|c a IH]; intros H.
  - reflexivity.
  - change (String c a +:+ String ":" b) with (String c (a +:+ String ":" b)).
    cbn [contains] in H. apply orb_false_elim in H as [Hc Ha].
    cbn [split_colon]. rewrite Hc, (IH Ha). reflexivity.
Qed.

Lemma remove_unsafe_empty (url : string) :
  remove_unsafe (lstrip_c0 url) <> EmptyString -> nonempty url = true.
Proof. destruct url; [intros H; contradiction H; reflexivity | reflexivity]. Qed.

Section url_facts.
Context (bracketed_netloc_ok : string -> bool).

(** What [urlparse] finds in a text of the shape scheme://host... *)
Lemma urlparse_shape (url head host tail : string) :
  remove_unsafe (lstrip_c0 url) = head +:+ "://" +:+ host +:+ tail ->
  lower head = "http"%string \/ lower head = "https"%string ->
  all_chars (fun c => negb (is_delim c)) host = true ->
  contains "[" host = false -> contains "]" host = false ->
  stops (fun c => negb (is_delim c)) tail ->
  urlparse bracketed_netloc_ok url
  = Ok {| scheme := lower head; netloc := host; rest := tail |}.
Proof.
  intros Hu Hs Hhost Hopen Hclose Htail.
  assert (Halpha : all_chars isalpha (lower head) = true)
    by (destruct Hs as [-> | ->]; reflexivity).
  destruct (lower_alpha head Halpha) as (Ha & Hsc & Hcolon).
  unfold urlparse. rewrite Hu. cbv zeta.
  change (head +:+ "://" +:+ host +:+ tail)
    with (head +:+ String ":" ("//" +:+ host +:+ tail)).
  unfold split_scheme. rewrite (split_colon_app _ _ Hcolon).
  destruct head as [|h head]; [destruct Hs; discriminate|].
  rewrite Hsc. cbn [all_chars] in Ha. apply andb_true_iff in Ha as [-> _]. cbn [andb].
  change (after_slashes ("//" +:+ host +:+ tail)) with (Some (host +:+ tail)).
  cbv iota beta. unfold splitnetloc.
  rewrite (dates_proofs.span_app _ _ _ Hhost Htail), Hopen, Hclose. reflexivity.
Qed.

(** The text of a URL that [urlparse] reads with a scheme of letters and
    a network location. *)
Lemma urlparse_text (url : string) (parsed : ParseResult) :
  urlparse bracketed_netloc_ok url = Ok parsed ->
  scheme parsed = "http"%string \/ scheme parsed = "https"%string ->
  netloc parsed <> EmptyString ->
  exists head tail,
    remove_unsafe (lstrip_c0 url) = head +:+ "://" +:+ netloc parsed +:+ tail
    /\ lower head = scheme parsed
    /\ stops (fun c => negb (is_delim c)) tail.
Proof.
  intros Hp Hs Hn.
  apply normalize_proofs.urlparse_ok in Hp as (Hsch & Hnet).
  set (u := remove_unsafe (lstrip_c0 url)) in *.
  unfold split_scheme in Hsch, Hnet.
  destruct (split_colon u) as [[head tail]|] eqn:Hc;
    [|simpl in Hsch; rewrite Hsch in Hs; destruct Hs; discriminate].
  destruct (normalize_proofs.split_colon_spec _ _ _ Hc) as (Hu & _).
  destruct head as [|h head];
    [simpl in Hsch; rewrite Hsch in Hs; destruct Hs; discriminate|].
  destruct (isalpha h && all_chars is_scheme_char (String h head));
    [|simpl in Hsch; rewrite Hsch in Hs; destruct Hs; discriminate].
  cbn [fst snd] in Hsch, Hnet.
  destruct (after_slashes tail) as [after|] eqn:Ha; [|congruence].
  apply normalize_proofs.after_slashes_spec in Ha. subst tail.
  destruct (splitnetloc after) as [nl r] eqn:Hnl. cbn [fst] in Hnet.
  unfold splitnetloc in Hnl.
  destruct (dates_proofs.span_spec _ _ _ _ Hnl) as (-> & _ & Hstop).
  exists (String h head), r. rewrite Hnet, Hsch. split; [exact Hu|]. split; [reflexivity|].
  exact Hstop.
Qed.

(** A URL passes the check of a site with the names [hosts] exactly
    when it has the site's shape. *)
Lemma site_check (hosts : list string) (url : string) :
  Forall (fun host => host <> EmptyString
                      /\ all_chars (fun c => negb (is_delim c)) host = true
                      /\ contains "[" host = false /\ contains "]" host = false) hosts ->
  (if negb (is_valid_url bracketed_netloc_ok url) then false
   else match urlparse bracketed_netloc_ok url with
        | Ok parsed => str_in (netloc parsed) hosts
        | Raise _ => false
        end) = true
  <-> site_url hosts url.
Proof.
  intros Hhosts. rewrite List.Forall_forall in Hhosts. split.
  - destruct (is_valid_url bracketed_netloc_ok url) eqn:Hv; cbn [negb]; [|discriminate].
    apply normalize_proofs.is_valid_url_iff in Hv as (parsed & Hp & Hs & Hn).
    rewrite Hp. intros Hin. apply dates_proofs.str_in_In in Hin.
    destruct (urlparse_text url parsed Hp Hs Hn) as (head & tail & Hu & Hl & Ht).
    exists head, (netloc parsed), tail. rewrite Hl. auto.
  - intros (head & host & tail & Hu & Hs & Hin & Ht).
    destruct (Hhosts host Hin) as (Hne & Hall & Hopen & Hclose).
    pose proof (urlparse_shape url head host tail Hu Hs Hall Hopen Hclose Ht) as Hp.
    assert (Hv : is_valid_url bracketed_netloc_ok url = true).
    { apply normalize_proofs.is_valid_url_iff. eexists. split; [exact Hp|]. auto. }
    rewrite Hv, Hp. cbn [negb netloc]. apply dates_proofs.str_in_In, Hin.
Qed.

(** [is_valid_x_url] accepts exactly the texts that read, once the
    leading control characters and blanks and every tab, carriage return
    and newline are dropped, as "http" or "https" in any case, "://", one
    of the four names "x.com", "www.x.com", "twitter.com" and
    "www.twitter.com" as it is written here, and then nothing or a text
    that starts with "/", "?" or "#".  A name in capitals, a port or a
    user name before the name are refused. *)
Theorem is_valid_x_url_shape :
  (forall url,
      is_valid_x_url bracketed_netloc_ok url = true
      <-> site_url ["x.com"; "www.x.com"; "twitter.com"; "www.twitter.com"]%string url)
  /\ is_valid_x_url bracketed_netloc_ok "HTTPS://x.com" = true
  /\ is_valid_x_url bracketed_netloc_ok "https://X.com/" = false
  /\ is_valid_x_url bracketed_netloc_ok "https://x.com:443/" = false
  /\ is_valid_x_url bracketed_netloc_ok "https://x.com@evil.example/" = false.
Proof.
  split; [|repeat split; reflexivity].
  intros url. apply site_check.
  repeat constructor; discriminate.
Qed.

(** [is_valid_reddit_url] accepts exactly the texts of that shape with
    one of the names "reddit.com", "www.reddit.com" and "old.reddit.com". *)
Theorem is_valid_reddit_url_shape :
  forall url,
    is_valid_reddit_url bracketed_netloc_ok url = true
    <-> site_url ["reddit.com"; "www.reddit.com"; "old.reddit.com"]%string url.
Proof.
  intros url. apply site_check.
  repeat constructor; discriminate.
Qed.

(** No URL passes for both sites, and a URL that passes for one of them
    is a valid URL. *)
Theorem site_urls_disjoint :
  forall url,
    (is_valid_reddit_url bracketed_netloc_ok url = true ->
     is_valid_url bracketed_netloc_ok url = true
     /\ is_valid_x_url bracketed_netloc_ok url = false)
    /\ (is_valid_x_url bracketed_netloc_ok url = true ->
        is_valid_url bracketed_netloc_ok url = true
        /\ is_valid_reddit_url bracketed_netloc_ok url = false).
Proof.
  intros url. unfold is_valid_reddit_url, is_valid_x_url.
  destruct (is_valid_url bracketed_netloc_ok url); cbn [negb]; [|split; discriminate].
  destruct (urlparse bracketed_netloc_ok url) as [parsed|e]; [|split; discriminate].
  split; intros H; (split; [reflexivity|]);
    apply dates_proofs.str_in_In in H; simpl in H;
    repeat (destruct H as [<- | H]; [reflexivity|]); contradiction.
Qed.

End url_facts.

End url_proofs.

